(** * Example agent scripts: the helper functions and their properties

    The repository is a collection of independent Python scripts around an
    agent SDK.  This development embeds the helpers the scripts define
    themselves (string filters, canned tool answers, guardrail callbacks,
    the user context dataclass, the start-up check of the API key) and
    proves what they compute.

    Modelling conventions:
    - a Python [str] is a [string] of the Standard Library: the sequence of
      the bytes of its UTF-8 encoding.  Concatenation, equality, [in],
      [startswith], [endswith] and [replace] with patterns that are valid
      UTF-8 act on the encoding exactly as they act on the code points;
    - [None] is [None] of an [option];
    - a [dict] is an association list in insertion order without repeated
      keys, since the scripts iterate over [items()];
    - a tool that mutates its context returns the new context next to its
      result; an exception is the left summand of a sum. *)

From Stdlib Require Import String Ascii List Bool Arith Lia ZArith DecimalString.
Import ListNotations.
Open Scope string_scope.

(** ** Python string operations *)

Module PyStr.

Definition nl : string := String (ascii_of_nat 10) "".

(** [s[n:]] *)
Fixpoint drop (n : nat) (s : string) : string :=
  match n, s with
  | O, _ => s
  | S _, "" => ""
  | S k, String _ t => drop k t
  end.

(** [s.startswith(p)] *)
Fixpoint startswith (s p : string) : bool :=
  match p, s with
  | "", _ => true
  | String _ _, "" => false
  | String a p', String b s' => Ascii.eqb a b && startswith s' p'
  end.

(** [s.endswith(p)] *)
Definition endswith (s p : string) : bool :=
  Nat.leb (String.length p) (String.length s) &&
  (drop (String.length s - String.length p) s =? p).

(** [sub in s] *)
Fixpoint contains (sub s : string) : bool :=
  startswith s sub ||
  match s with
  | "" => false
  | String _ t => contains sub t
  end.

(** [s.count(c)] for a one-character [c] *)
Fixpoint count (c : ascii) (s : string) : nat :=
  match s with
  | "" => 0
  | String a t => (if Ascii.eqb a c then 1 else 0) + count c t
  end.

(** [c not in s] for a one-character [c] *)
Fixpoint free_of (c : ascii) (s : string) : bool :=
  match s with
  | "" => true
  | String a t => negb (Ascii.eqb a c) && free_of c t
  end.

(** [s.replace(old, new)] scans [s] from the left; where [old] starts it
    emits [new] and jumps over the match, elsewhere it copies one
    character.  [skip] counts the characters of a match still to jump. *)
Fixpoint replace_from (old new : string) (skip : nat) (s : string) : string :=
  match s with
  | "" => ""
  | String c t =>
      match skip with
      | S k => replace_from old new k t
      | O =>
          if startswith s old
          then new ++ replace_from old new (String.length old - 1) t
          else String c (replace_from old new 0 t)
      end
  end.

(** With an empty [old] Python puts [new] before every character and at
    the end. *)
Fixpoint replace_empty (new s : string) : string :=
  match s with
  | "" => new
  | String c t => new ++ String c (replace_empty new t)
  end.

Definition replace (s old new : string) : string :=
  match old with
  | "" => replace_empty new s
  | String _ _ => replace_from old new 0 s
  end.

(** [s] has no line break. *)
Definition single_line (s : string) : bool := free_of (ascii_of_nat 10) s.

(** The text [body] between square brackets. *)
Definition bracketed (body : string) : string := String "[" (body ++ "]").

(** [sep.join(l)] *)
Fixpoint join (sep : string) (l : list string) : string :=
  match l with
  | [] => ""
  | [x] => x
  | x :: rest => x ++ sep ++ join sep rest
  end.

Definition is_upper (c : ascii) : bool :=
  let n := nat_of_ascii c in Nat.leb 65 n && Nat.leb n 90.

Definition is_lower (c : ascii) : bool :=
  let n := nat_of_ascii c in Nat.leb 97 n && Nat.leb n 122.

Definition lower_char (c : ascii) : ascii :=
  if is_upper c then ascii_of_nat (nat_of_ascii c + 32) else c.

Definition upper_char (c : ascii) : ascii :=
  if is_lower c then ascii_of_nat (nat_of_ascii c - 32) else c.

(** [s.lower()] on the ASCII letters.  Python also maps letters outside
    ASCII; their images stay outside ASCII except for U+212A (to [k]) and
    U+0130 (to [i] followed by U+0307), so a string whose lower-case form
    is one of the ASCII words compared against below is made of ASCII
    letters, and on those this is Python's function. *)
Fixpoint lower (s : string) : string :=
  match s with
  | "" => ""
  | String c t => String (lower_char c) (lower t)
  end.

(** [s.capitalize()]: first character upper-cased, the rest lower-cased. *)
Definition capitalize (s : string) : string :=
  match s with
  | "" => ""
  | String c t => String (upper_char c) (lower t)
  end.

(** [str(z)] for an [int] *)
Definition str_of_int (z : Z) : string := NilZero.string_of_int (Z.to_int z).

End PyStr.

Import PyStr.

(** ** 19_inputfilters.py *)

Module InputFilters.

Definition redaction_note : string :=
  "[Note: Some sensitive information has been redacted for security purposes.]".

Definition sanitize_sensitive_info (input_text : string) : string :=
  let sanitized := input_text in
  let sanitized := replace sanitized "credit card" "[PAYMENT METHOD]" in
  let sanitized := replace sanitized "SSN" "[REDACTED ID]" in
  let sanitized := replace sanitized "password" "[CREDENTIALS]" in
  let sanitized := replace sanitized "account number" "[ACCOUNT ID]" in
  if negb (sanitized =? input_text)
  then sanitized ++ nl ++ nl ++ redaction_note
  else sanitized.

(** The text after the four replacements, before the note. *)
Definition redacted (input_text : string) : string :=
  replace
    (replace
       (replace (replace input_text "credit card" "[PAYMENT METHOD]")
          "SSN" "[REDACTED ID]")
       "password" "[CREDENTIALS]")
    "account number" "[ACCOUNT ID]".

(** One of the four searched-for substrings occurs in [s]. *)
Definition mentions_sensitive (s : string) : bool :=
  contains "credit card" s || contains "SSN" s ||
  contains "password" s || contains "account number" s.

End InputFilters.

(** ** The start-up check shared by the geminiagents scripts *)

Module Startup.

Inductive exn : Type :=
  | ValueError (msg : string).

(** The objects a script builds once the key is known. *)
Inductive object : Type :=
  | AsyncOpenAI (api_key : option string) (base_url : string)
  | OpenAIChatCompletionsModel (model : string) (openai_client : object)
  | RunConfig (model model_provider : object) (tracing_disabled : bool).

(** Module initialisation threads the list of objects built so far and may
    stop with an exception. *)
Definition Init (A : Type) : Type := list object -> (exn + A) * list object.

Definition ret {A} (a : A) : Init A := fun built => (inr a, built).

Definition raise {A} (e : exn) : Init A := fun built => (inl e, built).

Definition bind {A B} (m : Init A) (k : A -> Init B) : Init B :=
  fun built =>
    match m built with
    | (inl e, built') => (inl e, built')
    | (inr a, built') => k a built'
    end.

Notation "x <- m ;; k" := (bind m (fun x => k))
  (at level 61, m at next level, right associativity).

(** Calling an SDK constructor: the object is built and recorded. *)
Definition construct (o : object) : Init object :=
  fun built => (inr o, (built ++ [o])%list).

(** Python's truth value of [os.getenv(...)]: [None] and the empty string
    are false. *)
Definition truthy (v : option string) : bool :=
  match v with
  | None => false
  | Some "" => false
  | Some (String _ _) => true
  end.

Definition missing_key_message : string :=
  "GEMINI_API_KEY is not set. Please ensure it is defined in your .env file.".

(** What follows the client differs from script to script; it is a list of
    further objects, built in order. *)
Fixpoint construct_all (objects : list object) : Init unit :=
  match objects with
  | [] => ret tt
  | o :: rest => _ <- construct o ;; construct_all rest
  end.

(** The start of every geminiagents script.  [getenv] is the value
    [os.getenv("GEMINI_API_KEY")] returned; [script] gives the objects the
    script goes on to build from its client. *)
Definition module_init (getenv : option string) (script : object -> list object)
    : Init unit :=
  let gemini_api_key := getenv in
  if negb (truthy gemini_api_key)
  then raise (ValueError missing_key_message)
  else
    external_client <-
      construct (AsyncOpenAI gemini_api_key
                   "https://generativelanguage.googleapis.com/v1beta/openai/") ;;
    construct_all (script external_client).

(** The continuation of all scripts but 25_models.py: the model and the
    run configuration. *)
Definition model_and_config (external_client : object) : list object :=
  let model := OpenAIChatCompletionsModel "gemini-2.0-flash" external_client in
  let config := RunConfig model external_client true in
  [model; config].

(** 25_models.py builds two models. *)
Definition two_models (external_client : object) : list object :=
  let gemini_flash_model := OpenAIChatCompletionsModel "gemini-2.0-flash" external_client in
  let gemini_pro_model := OpenAIChatCompletionsModel "gemini-2.0-pro" external_client in
  [gemini_flash_model; gemini_pro_model].

End Startup.

(** ** The weather tools: 26_basicvoiceagent.py and 03_basicconfig.py *)

Module Weather.

(** What a tool can touch besides its arguments: the state of the [random]
    module, given as the stream of its raw draws and the position in it,
    and what was printed. *)
Record World : Type := mkWorld {
  rng : nat -> nat;
  rng_pos : nat;
  stdout : list string
}.

Definition print (line : string) (w : World) : World :=
  mkWorld (rng w) (rng_pos w) (stdout w ++ [line])%list.

(** [random.choice(seq)]: the element at a drawn index below [len(seq)];
    [None] stands for the IndexError on an empty sequence. *)
Definition random_choice (seq : list string) (w : World) : option string * World :=
  match seq with
  | [] => (None, w)
  | _ :: _ =>
      (nth_error seq (rng w (rng_pos w) mod List.length seq),
       mkWorld (rng w) (S (rng_pos w)) (stdout w))
  end.

Definition choices : list string := ["sunny"; "cloudy"; "rainy"; "snowy"].

(** 26_basicvoiceagent.py *)
Definition get_weather_voice (city : string) (w : World) : option string * World :=
  let w := print ("[debug] get_weather called with city: " ++ city) w in
  let (picked, w) := random_choice choices w in
  match picked with
  | Some c => (Some ("The weather in " ++ city ++ " is " ++ c ++ "."), w)
  | None => (None, w)
  end.

(** geminiagents/03_basicconfig.py *)
Definition get_weather (city : string) : string :=
  "The weather in " ++ city ++ " is sunny".




End Weather.

(** ** 22_localcontext.py *)

Module LocalContext.

(** The values a purchase record holds.  A float is carried by its [repr],
    the text an f-string prints for it. *)
Inductive pyval : Type :=
  | VStr (s : string)
  | VInt (z : Z)
  | VFloat (repr : string).

Definition format (v : pyval) : string :=
  match v with
  | VStr s => s
  | VInt z => str_of_int z
  | VFloat r => r
  end.

Definition dict (V : Type) : Type := list (string * V).

(** [d.get(k)] *)
Fixpoint dict_get {V} (d : dict V) (k : string) : option V :=
  match d with
  | [] => None
  | (k', v) :: rest => if k' =? k then Some v else dict_get rest k
  end.

(** [d.get(k, default)] *)
Definition dict_get_default {V} (d : dict V) (k : string) (default : V) : V :=
  match dict_get d k with
  | Some v => v
  | None => default
  end.

(** [d[k] = v]: a key already present keeps its place, a new one goes last. *)
Fixpoint dict_set {V} (d : dict V) (k : string) (v : V) : dict V :=
  match d with
  | [] => [(k, v)]
  | (k', v') :: rest =>
      if k' =? k then (k', v) :: rest else (k', v') :: dict_set rest k v
  end.

Record UserInfo : Type := mkUserInfo {
  name : string;
  uid : Z;
  email : option string;
  subscription_tier : string;
  preferences : option (dict string);
  purchase_history : option (list (dict pyval))
}.

Definition post_init (self : UserInfo) : UserInfo :=
  let self :=
    match preferences self with
    | None =>
        mkUserInfo (name self) (uid self) (email self) (subscription_tier self)
          (Some []) (purchase_history self)
    | Some _ => self
    end in
  match purchase_history self with
  | None =>
      mkUserInfo (name self) (uid self) (email self) (subscription_tier self)
        (preferences self) (Some [])
  | Some _ => self
  end.

(** The dataclass constructor.  [subscription_tier = None] is the keyword
    left out, which gives the default ["free"]; for the other three
    optional fields leaving the keyword out and passing [None] agree. *)
Definition new_UserInfo (name : string) (uid : Z) (email : option string)
    (subscription_tier : option string) (preferences : option (dict string))
    (purchase_history : option (list (dict pyval))) : UserInfo :=
  post_init
    (mkUserInfo name uid email
       (match subscription_tier with Some t => t | None => "free" end)
       preferences purchase_history).

(** [user.preferences.get(k)] *)
Definition preference (u : UserInfo) (k : string) : option string :=
  match preferences u with
  | Some d => dict_get d k
  | None => None
  end.

(** Neither collection field is [None]. *)
Definition UserInfo_inv (u : UserInfo) : bool :=
  match preferences u, purchase_history u with
  | Some _, Some _ => true
  | _, _ => false
  end.

Inductive exn : Type :=
  | TypeError (msg : string).

(** A context tool: its answer (or the exception it raises) and the
    context object as the call leaves it. *)
Definition Tool : Type := UserInfo -> (exn + string) * UserInfo.

(** [x or default] on an optional string *)
Definition or_else (x : option string) (default : string) : string :=
  match x with
  | Some (String c s) => String c s
  | _ => default
  end.

Definition fetch_user_profile : Tool := fun user =>
  (inr (nl ++ "User Profile:" ++ nl
        ++ "- Name: " ++ name user ++ nl
        ++ "- User ID: " ++ str_of_int (uid user) ++ nl
        ++ "- Email: " ++ or_else (email user) "Not provided" ++ nl
        ++ "- Subscription: " ++ subscription_tier user ++ nl),
   user).

Definition fetch_user_preferences : Tool := fun user =>
  match preferences user with
  | None | Some [] => (inr "No preferences have been set for this user.", user)
  | Some items =>
      let prefs := join nl (map (fun kv => "- " ++ fst kv ++ ": " ++ snd kv) items) in
      (inr ("User Preferences:" ++ nl ++ prefs), user)
  end.

Definition fetch_purchase_history : Tool := fun user =>
  match purchase_history user with
  | None | Some [] => (inr "No purchase history found for this user.", user)
  | Some purchases =>
      let history :=
        join nl
          (map (fun p =>
                  "- " ++ format (dict_get_default p "item" (VStr "Unknown item"))
                  ++ ": $" ++ format (dict_get_default p "price" (VFloat "0.0"))
                  ++ " on " ++ format (dict_get_default p "date" (VStr "Unknown date")))
             purchases) in
      (inr ("Purchase History:" ++ nl ++ history), user)
  end.

Definition features : dict (list string) :=
  [ ("free",
     [ "Basic access to platform";
       "Limited storage (5GB)";
       "Standard support";
       "Access to community forums" ]);
    ("basic",
     [ "Full access to platform";
       "Increased storage (50GB)";
       "Priority email support";
       "No advertisements";
       "Monthly newsletter" ]);
    ("premium",
     [ "Full access to all features";
       "Unlimited storage";
       "24/7 priority support";
       "Early access to new features";
       "Exclusive content";
       "Personalized recommendations" ]) ].

Definition get_subscription_features : Tool := fun user =>
  let tier := lower (subscription_tier user) in
  match dict_get features tier with
  | None => (inr ("Unknown subscription tier: " ++ subscription_tier user), user)
  | Some fs =>
      let feature_list := join nl (map (fun f => "- " ++ f) fs) in
      (inr ("Features for " ++ capitalize (subscription_tier user) ++ " tier:"
            ++ nl ++ feature_list),
       user)
  end.

Definition update_user_preference (key value : string) : Tool := fun user =>
  match preferences user with
  | None =>
      (inl (TypeError "'NoneType' object does not support item assignment"), user)
  | Some d =>
      (inr ("Successfully updated preference: " ++ key ++ " = " ++ value),
       mkUserInfo (name user) (uid user) (email user) (subscription_tier user)
         (Some (dict_set d key value)) (purchase_history user))
  end.

(** The five tools registered with the agent, [update_user_preference] at
    the arguments the model chose. *)
Inductive tool_call : Type :=
  | FetchUserProfile
  | FetchUserPreferences
  | FetchPurchaseHistory
  | GetSubscriptionFeatures
  | UpdateUserPreference (key value : string).

Definition run_tool (c : tool_call) : Tool :=
  match c with
  | FetchUserProfile => fetch_user_profile
  | FetchUserPreferences => fetch_user_preferences
  | FetchPurchaseHistory => fetch_purchase_history
  | GetSubscriptionFeatures => get_subscription_features
  | UpdateUserPreference key value => update_user_preference key value
  end.

(** The context after a run of tool calls. *)
Fixpoint run_tools (cs : list tool_call) (user : UserInfo) : UserInfo :=
  match cs with
  | [] => user
  | c :: rest => run_tools rest (snd (run_tool c user))
  end.

(** The user of [demo_basic_context]. *)
Definition alice : UserInfo :=
  new_UserInfo "Alice" 12345 (Some "alice@example.com") (Some "premium")
    (Some [("theme", "dark"); ("notifications", "enabled")])
    (Some [ [("item", VStr "Annual Subscription"); ("price", VFloat "99.99");
             ("date", VStr "2023-01-15")];
            [("item", VStr "Premium Add-on"); ("price", VFloat "29.99");
             ("date", VStr "2023-02-20")] ]).

(** The rendering of one tier's features that the claim describes. *)
Definition rendered (Tier : string) (fs : list string) : string :=
  "Features for " ++ Tier ++ " tier:" ++ nl ++ join nl (map (fun f => "- " ++ f) fs).

End LocalContext.

(** ** 07_basicdynamicinstructions.py *)

Module DynamicInstructions.

Record UserContext : Type := mkUserContext {
  name : string;
  language : string;
  interests : list string;
  experience_level : string
}.

Definition base_text (user : UserContext) : string :=
  nl ++ "    The user's name is " ++ name user
     ++ ". They prefer communication in " ++ language user ++ "." ++ nl
     ++ "    Their experience level is: " ++ experience_level user ++ "." ++ nl
     ++ "    Their interests include: " ++ join ", " (interests user) ++ "." ++ nl
     ++ "    " ++ nl
     ++ "    Tailor your responses to match their experience level and interests." ++ nl
     ++ "    ".

Definition beginner_paragraph : string :=
  nl ++ "        Use simple explanations and avoid technical jargon." ++ nl
     ++ "        Provide step-by-step guidance and offer encouragement." ++ nl
     ++ "        ".

Definition intermediate_paragraph : string :=
  nl ++ "        You can use some technical terms but explain complex concepts." ++ nl
     ++ "        Provide more detailed information and some advanced tips." ++ nl
     ++ "        ".

Definition expert_paragraph : string :=
  nl ++ "        You can use technical language freely." ++ nl
     ++ "        Focus on advanced techniques and in-depth analysis." ++ nl
     ++ "        Be concise and precise in your explanations." ++ nl
     ++ "        ".

Definition respond_in (lang : string) : string :=
  "Respond in " ++ lang ++ " when possible.".

Definition language_addendum (lang : string) : string :=
  nl ++ "        " ++ respond_in lang ++ nl
     ++ "        Use simple sentence structures for clarity." ++ nl
     ++ "        ".

(** [user] is [context.context]; the [agent] argument is not used. *)
Definition dynamic_instructions (user : UserContext) : string :=
  let base_instructions := base_text user in
  let base_instructions :=
    if experience_level user =? "beginner"
    then base_instructions ++ beginner_paragraph
    else if experience_level user =? "intermediate"
    then base_instructions ++ intermediate_paragraph
    else if experience_level user =? "expert"
    then base_instructions ++ expert_paragraph
    else base_instructions in
  let base_instructions :=
    if negb (language user =? "English")
    then base_instructions ++ language_addendum (language user)
    else base_instructions in
  base_instructions.

(** The instructions line by line. *)
Definition base_lines (user : UserContext) : list string :=
  [ "";
    "    The user's name is " ++ name user
      ++ ". They prefer communication in " ++ language user ++ ".";
    "    Their experience level is: " ++ experience_level user ++ ".";
    "    Their interests include: " ++ join ", " (interests user) ++ ".";
    "    ";
    "    Tailor your responses to match their experience level and interests.";
    "    " ].

Definition level_lines (level : string) : list string :=
  if level =? "beginner" then
    [ "        Use simple explanations and avoid technical jargon.";
      "        Provide step-by-step guidance and offer encouragement.";
      "        " ]
  else if level =? "intermediate" then
    [ "        You can use some technical terms but explain complex concepts.";
      "        Provide more detailed information and some advanced tips.";
      "        " ]
  else if level =? "expert" then
    [ "        You can use technical language freely.";
      "        Focus on advanced techniques and in-depth analysis.";
      "        Be concise and precise in your explanations.";
      "        " ]
  else [].

Definition language_lines (lang : string) : list string :=
  if lang =? "English" then []
  else
    [ "        " ++ respond_in lang;
      "        Use simple sentence structures for clarity.";
      "        " ].

Definition instruction_lines (user : UserContext) : list string :=
  (base_lines user ++ level_lines (experience_level user)
   ++ language_lines (language user))%list.

(** None of the user's fields holds a line break. *)
Definition single_line_fields (user : UserContext) : bool :=
  single_line (name user) && single_line (language user)
  && single_line (experience_level user)
  && single_line (join ", " (interests user)).

(** A context whose name holds the beginner paragraph and the English
    form of the whole language addendum. *)
Definition echo_user : UserContext :=
  mkUserContext (beginner_paragraph ++ language_addendum "English") "English" []
    "expert".

(** A context with one-line fields whose name is the English form of the
    addendum's first sentence. *)
Definition polite_user : UserContext :=
  mkUserContext "Respond in English when possible." "English" [] "expert".

(** A beginner who prefers Spanish. *)
Definition maria : UserContext :=
  mkUserContext "Maria" "Spanish" ["cooking"; "photography"] "beginner".

(** What is appended for an experience level, and for a language. *)
Definition level_paragraph (level : string) : string :=
  if level =? "beginner" then beginner_paragraph
  else if level =? "intermediate" then intermediate_paragraph
  else if level =? "expert" then expert_paragraph
  else "".

Definition language_part (lang : string) : string :=
  if lang =? "English" then "" else language_addendum lang.

End DynamicInstructions.

(** ** 23_guardrails.py and 24_outputguardrails.py *)

Module Guardrails.

Inductive exn : Type :=
  | TypeError (unexpected_keyword : string).

(** The SDK's result dataclass: it has the two fields [output_info] and
    [tripwire_triggered], and no other. *)
Record GuardrailFunctionOutput (Info : Type) : Type := mkGuardrailFunctionOutput {
  output_info : Info;
  tripwire_triggered : bool
}.

Arguments mkGuardrailFunctionOutput {Info}.
Arguments output_info {Info}.
Arguments tripwire_triggered {Info}.

(** The call [GuardrailFunctionOutput(output_info=..., tripwire_triggered=...,
    k=v, ...)] with the further keywords the caller writes: a dataclass
    constructor raises TypeError for a keyword that is not a field. *)
Definition new_GuardrailFunctionOutput {Info} (output_info : Info)
    (tripwire_triggered : bool) (other_keywords : list (string * string))
    : exn + GuardrailFunctionOutput Info :=
  match other_keywords with
  | [] => inr (mkGuardrailFunctionOutput output_info tripwire_triggered)
  | (keyword, _) :: _ => inl (TypeError keyword)
  end.

(** The SDK stops the run (raising its tripwire exception) when a guardrail
    answers with the tripwire set, and carries on otherwise. *)
Definition blocks {Info} (g : GuardrailFunctionOutput Info) : bool :=
  tripwire_triggered g.

Record MathHomeworkOutput : Type := mkMathHomeworkOutput {
  is_math_homework : bool;
  homework_reasoning : string
}.

Record MathOutput : Type := mkMathOutput {
  is_math : bool;
  math_reasoning : string
}.

Record MessageOutput : Type := mkMessageOutput {
  response : string
}.

Section Detectors.

(** The input items of the SDK and Python's [str(...)] of a list of them. *)
Variable TResponseInputItem : Type.
Variable str_of_items : list TResponseInputItem -> string.

(** [Runner.run(math_guardrail_agent, input_str, run_config=config)] followed
    by [final_output_as(MathHomeworkOutput)], and the same for the output
    detector: the detector agents' answers are parameters. *)
Variable run_math_guardrail_agent : string -> MathHomeworkOutput.
Variable run_math_output_agent : string -> MathOutput.

(** The [ctx] and [agent] arguments of both guardrails are not used. *)
Definition math_homework_guardrail (input_data : string + list TResponseInputItem)
    : exn + GuardrailFunctionOutput MathHomeworkOutput :=
  let input_str :=
    match input_data with
    | inl s => s
    | inr items => str_of_items items
    end in
  let output := run_math_guardrail_agent input_str in
  if is_math_homework output
  then
    new_GuardrailFunctionOutput output true
      [ ("tripwire_message",
         "I can't provide direct solutions to math homework problems. "
         ++ homework_reasoning output
         ++ " Instead, I can explain concepts or guide you through the problem-solving approach without giving the answer.") ]
  else new_GuardrailFunctionOutput output false [].

Definition math_solution_guardrail (output : MessageOutput)
    : exn + GuardrailFunctionOutput MathOutput :=
  let check_output := run_math_output_agent (response output) in
  if is_math check_output
  then
    new_GuardrailFunctionOutput check_output true
      [ ("tripwire_message",
         "I can't provide direct solutions to math problems. "
         ++ math_reasoning check_output
         ++ " Instead, I'll provide guidance on the approach without giving the complete answer.") ]
  else new_GuardrailFunctionOutput check_output false [].

End Detectors.

End Guardrails.

(** ** More of the scripts: the other filters, tools and guardrails *)

Module PyStrMore.

(** No occurrence of [q] can begin inside [a]: no non-empty end of [a]
    starts with [q] or starts [q]. *)
Fixpoint clear_of (a q : string) : bool :=
  match a with
  | "" => true
  | String _ a' => negb (startswith a q || startswith q a) && clear_of a' q
  end.

End PyStrMore.

(** 19_inputfilters.py: the two wrapping filters. *)
Module FilterChains.

Import InputFilters.

Definition add_customer_context (input_text : string) : string :=
  nl ++ "Customer context: Gold tier member since 2019, prefers email communication, has purchased premium plan."
     ++ nl ++ nl
     ++ "Customer inquiry: " ++ input_text ++ nl.

Definition add_system_instructions (input_text : string) : string :=
  nl ++ "SYSTEM INSTRUCTIONS:" ++ nl
     ++ "- Be concise and direct in your responses" ++ nl
     ++ "- Use bullet points for lists" ++ nl
     ++ "- Avoid technical jargon unless necessary" ++ nl
     ++ "- Always confirm understanding before proceeding" ++ nl
     ++ nl
     ++ "USER QUERY:" ++ nl
     ++ input_text ++ nl.

(** What each wrapper puts before the input; after it both put a line
    break. *)
Definition customer_head : string :=
  nl ++ "Customer context: Gold tier member since 2019, prefers email communication, has purchased premium plan."
     ++ nl ++ nl
     ++ "Customer inquiry: ".

Definition system_head : string :=
  nl ++ "SYSTEM INSTRUCTIONS:" ++ nl
     ++ "- Be concise and direct in your responses" ++ nl
     ++ "- Use bullet points for lists" ++ nl
     ++ "- Avoid technical jargon unless necessary" ++ nl
     ++ "- Always confirm understanding before proceeding" ++ nl
     ++ nl
     ++ "USER QUERY:" ++ nl.

(** The note, when something was redacted. *)
Definition note_if (redacted_something : bool) : string :=
  if redacted_something then nl ++ nl ++ redaction_note else "".

End FilterChains.

(** 22_localcontext.py, runs of tool calls. *)
Module ToolRuns.

Import LocalContext.

(** The value the last [update_user_preference] call of a run gave to the
    key [k], if the run has one. *)
Fixpoint last_update (k : string) (calls : list tool_call) : option string :=
  match calls with
  | [] => None
  | c :: rest =>
      match last_update k rest with
      | Some v => Some v
      | None =>
          match c with
          | UpdateUserPreference key value => if key =? k then Some value else None
          | _ => None
          end
      end
  end.

End ToolRuns.

(** agents/22_localcontext.py: the same dataclass, with a purchase history
    tool that indexes the records. *)
Module LocalContextOpenAI.

Import LocalContext.

Inductive exn : Type :=
  | KeyError (key : string).

(** [purchase[k]] *)
Definition dict_index (purchase : dict pyval) (k : string) : exn + pyval :=
  match dict_get purchase k with
  | Some v => inr v
  | None => inl (KeyError k)
  end.

(** The f-string of the loop body; its fields are evaluated from left to
    right. *)
Definition purchase_line (purchase : dict pyval) : exn + string :=
  match dict_index purchase "date" with
  | inl e => inl e
  | inr date =>
      match dict_index purchase "item" with
      | inl e => inl e
      | inr item =>
          match dict_index purchase "amount" with
          | inl e => inl e
          | inr amount =>
              inr ("- " ++ format date ++ ": " ++ format item
                   ++ " ($" ++ format amount ++ ")")
          end
      end
  end.

(** The loop that appends one line per purchase. *)
Fixpoint purchase_lines (history : list (dict pyval)) : exn + list string :=
  match history with
  | [] => inr []
  | purchase :: rest =>
      match purchase_line purchase with
      | inl e => inl e
      | inr line =>
          match purchase_lines rest with
          | inl e => inl e
          | inr lines => inr (line :: lines)
          end
      end
  end.

Definition fetch_purchase_history (user : UserInfo) : exn + string :=
  match purchase_history user with
  | None | Some [] => inr "No purchase history available for this user."
  | Some history =>
      match purchase_lines history with
      | inl e => inl e
      | inr purchases => inr ("Purchase History:" ++ nl ++ join nl purchases)
      end
  end.

(** The first of "date", "item", "amount" that a record lacks. *)
Definition first_missing (purchase : dict pyval) : option string :=
  match dict_get purchase "date", dict_get purchase "item", dict_get purchase "amount" with
  | None, _, _ => Some "date"
  | Some _, None, _ => Some "item"
  | Some _, Some _, None => Some "amount"
  | Some _, Some _, Some _ => None
  end.

End LocalContextOpenAI.

(** 07_basicdynamicinstructions.py: the recommendation tool. *)
Module Recommendations.

Definition recommendations : LocalContext.dict (LocalContext.dict string) :=
  [ ("programming",
     [ ("beginner", "Try starting with Python - it's beginner-friendly and versatile.");
       ("intermediate", "Consider learning a framework like Django or Flask for web development.");
       ("expert", "Explore advanced topics like concurrency, metaprogramming, or contributing to open source.") ]);
    ("cooking",
     [ ("beginner", "Start with simple recipes that have few ingredients and steps.");
       ("intermediate", "Try experimenting with different cuisines and techniques.");
       ("expert", "Consider molecular gastronomy or advanced baking techniques.") ]);
    ("photography",
     [ ("beginner", "Learn the basics of composition and lighting with your smartphone.");
       ("intermediate", "Experiment with manual settings on a DSLR or mirrorless camera.");
       ("expert", "Try specialized techniques like astrophotography or advanced post-processing.") ]) ].

(** U+212A KELVIN SIGN in UTF-8. *)
Definition kelvin_sign : string := String "226" (String "132" (String "170" "")).

(** [s.lower()].  Besides A to Z, Python lower-cases exactly one character
    outside ASCII to an ASCII letter: U+212A, to [k].  Every other character
    outside ASCII has a lower-case form outside ASCII (U+0130 gives [i]
    followed by U+0307) and is left as it is here.  So [str_lower s] is a
    word of ASCII letters exactly when [s.lower()] is, and then the two are
    equal: a lookup by ASCII keys finds what the code finds, on every
    input. *)
Definition str_lower (s : string) : string := lower (replace s kelvin_sign "K").

Definition get_recommendation (topic experience_level : string) : string :=
  let fallback :=
    "I don't have specific recommendations for " ++ topic ++ " at "
    ++ experience_level ++ " level yet." in
  match LocalContext.dict_get recommendations (str_lower topic) with
  | Some by_level =>
      match LocalContext.dict_get by_level (str_lower experience_level) with
      | Some recommendation => recommendation
      | None => fallback
      end
  | None => fallback
  end.

(** Every character is below 128. *)
Fixpoint ascii_only (s : string) : bool :=
  match s with
  | "" => true
  | String c t => Nat.ltb (nat_of_ascii c) 128 && ascii_only t
  end.

(** The topic and the level are among those of the table, whatever their
    case. *)
Definition known (topic experience_level : string) : bool :=
  existsb (String.eqb (str_lower topic)) ["programming"; "cooking"; "photography"]
  && existsb (String.eqb (str_lower experience_level))
       ["beginner"; "intermediate"; "expert"].

End Recommendations.

(** 23_guardrails.py and 24_outputguardrails.py: the code and essay
    guardrails. *)
Module MoreGuardrails.

Import Guardrails.

Record CodeAssignmentOutput : Type := mkCodeAssignmentOutput {
  is_code_assignment : bool;
  assignment_reasoning : string
}.

Record EssayWritingOutput : Type := mkEssayWritingOutput {
  is_essay_request : bool;
  request_reasoning : string;
  subject : option string
}.

Record CodeOutput : Type := mkCodeOutput {
  is_code : bool;
  code_reasoning : string
}.

Record EssayOutput : Type := mkEssayOutput {
  is_essay : bool;
  essay_reasoning : string
}.

Section Detectors.

Variable TResponseInputItem : Type.
Variable str_of_items : list TResponseInputItem -> string.

(** The detector agents' answers, as for the math guardrails. *)
Variable run_code_guardrail_agent : string -> CodeAssignmentOutput.
Variable run_essay_guardrail_agent : string -> EssayWritingOutput.
Variable run_code_output_agent : string -> CodeOutput.
Variable run_essay_output_agent : string -> EssayOutput.

Definition code_assignment_guardrail (input_data : string + list TResponseInputItem)
    : exn + GuardrailFunctionOutput CodeAssignmentOutput :=
  let input_str :=
    match input_data with
    | inl s => s
    | inr items => str_of_items items
    end in
  let output := run_code_guardrail_agent input_str in
  if is_code_assignment output
  then
    new_GuardrailFunctionOutput output true
      [ ("tripwire_message",
         "I can't provide complete solutions for coding assignments. "
         ++ assignment_reasoning output
         ++ " Instead, I can help explain concepts, provide guidance on approach, or help debug specific issues you're facing.") ]
  else new_GuardrailFunctionOutput output false [].

Definition essay_writing_guardrail (input_data : string + list TResponseInputItem)
    : exn + GuardrailFunctionOutput EssayWritingOutput :=
  let input_str :=
    match input_data with
    | inl s => s
    | inr items => str_of_items items
    end in
  let output := run_essay_guardrail_agent input_str in
  if is_essay_request output
  then
    let subject_info :=
      match subject output with
      | Some (String c s) => " on " ++ String c s
      | _ => ""
      end in
    new_GuardrailFunctionOutput output true
      [ ("tripwire_message",
         "I can't write complete essays" ++ subject_info ++ " for you. "
         ++ request_reasoning output
         ++ " Instead, I can help you brainstorm ideas, create an outline, or provide information that you can use to write your own essay.") ]
  else new_GuardrailFunctionOutput output false [].

Definition code_solution_guardrail (output : MessageOutput)
    : exn + GuardrailFunctionOutput CodeOutput :=
  let check_output := run_code_output_agent (response output) in
  if is_code check_output
  then
    new_GuardrailFunctionOutput check_output true
      [ ("tripwire_message",
         "I can't provide complete code solutions. "
         ++ code_reasoning check_output
         ++ " Instead, I'll provide guidance, pseudocode, or partial examples to help you develop your own solution.") ]
  else new_GuardrailFunctionOutput check_output false [].

Definition essay_guardrail (output : MessageOutput)
    : exn + GuardrailFunctionOutput EssayOutput :=
  let check_output := run_essay_output_agent (response output) in
  if is_essay check_output
  then
    new_GuardrailFunctionOutput check_output true
      [ ("tripwire_message",
         "I can't write complete essays for you. "
         ++ essay_reasoning check_output
         ++ " Instead, I'll provide an outline, key points, or guidance to help you write your own essay.") ]
  else new_GuardrailFunctionOutput check_output false [].

End Detectors.

End MoreGuardrails.

(** 26_basicvoiceagent.py: the weather tool called several times. *)
Module WeatherRuns.

Import Weather.



End WeatherRuns.

(** ** 11_runitemandagentsevents.py and 14_customfunctiontools.py *)

Module RandomHelpers.

Import Weather.









End RandomHelpers.

(** * Proofs *)

(** ** Facts about the string operations *)

Module PyStrFacts.

Lemma startswith_nil_r (s : string) : startswith s "" = true.
Proof. destruct s; reflexivity. Qed.

Lemma startswith_app (p t : string) : startswith (p ++ t) p = true.
Proof.
  induction p as [|a p IH]; simpl.
  - apply startswith_nil_r.
  - now rewrite Ascii.eqb_refl.
Qed.

Lemma startswith_split (s p : string) :
  startswith s p = true -> s = p ++ drop (String.length p) s.
Proof.
  revert s; induction p as [|a p IH]; intros s H.
  - reflexivity.
  - destruct s as [|b s]; simpl in H; [discriminate|].
    apply andb_true_iff in H as [Hab Hp].
    apply Ascii.eqb_eq in Hab; subst b.
    simpl. f_equal. now apply IH.
Qed.

Lemma drop_app (p t : string) : drop (String.length p) (p ++ t) = t.
Proof. induction p as [|a p IH]; simpl; [now destruct t | exact IH]. Qed.

Lemma app_nil_r (s : string) : s ++ "" = s.
Proof. induction s as [|a s IH]; simpl; [reflexivity | now rewrite IH]. Qed.

Lemma app_assoc (a b c : string) : (a ++ b) ++ c = a ++ b ++ c.
Proof. induction a as [|x a IH]; simpl; [reflexivity | now rewrite IH]. Qed.

Lemma length_app (a b : string) :
  String.length (a ++ b) = String.length a + String.length b.
Proof. induction a as [|x a IH]; simpl; [reflexivity | now rewrite IH]. Qed.

Lemma contains_nil_l (s : string) : contains "" s = true.
Proof. destruct s; reflexivity. Qed.

Lemma contains_nil_r (q : string) : contains q "" = true -> q = "".
Proof. destruct q; simpl; [reflexivity | discriminate]. Qed.

Lemma contains_cons (q : string) (c : ascii) (s : string) :
  contains q (String c s) = startswith (String c s) q || contains q s.
Proof. reflexivity. Qed.

Lemma contains_app_r (q a t : string) :
  contains q t = true -> contains q (a ++ t) = true.
Proof.
  intros H; induction a as [|x a IH]; simpl; [exact H|].
  rewrite IH. apply orb_true_r.
Qed.

Lemma contains_startswith (q s : string) :
  startswith s q = true -> contains q s = true.
Proof. intros H. destruct s; simpl in *; now rewrite H. Qed.

Lemma contains_app_mid (a x b : string) : contains x (a ++ x ++ b) = true.
Proof. apply contains_app_r, contains_startswith, startswith_app. Qed.

Lemma contains_app_head (x b : string) : contains x (x ++ b) = true.
Proof. apply contains_startswith, startswith_app. Qed.

Lemma contains_refl (x : string) : contains x x = true.
Proof.
  pose proof (contains_app_head x "") as H. now rewrite app_nil_r in H.
Qed.

Lemma startswith_app_l (a b q : string) :
  startswith a q = true -> startswith (a ++ b) q = true.
Proof.
  revert a; induction q as [|c q IH]; intros a H.
  - apply startswith_nil_r.
  - destruct a as [|d a]; simpl in *; [discriminate|].
    apply andb_true_iff in H as [Hc Hq]. rewrite Hc. simpl. now apply IH.
Qed.

Lemma contains_app_l (q a b : string) :
  contains q a = true -> contains q (a ++ b) = true.
Proof.
  induction a as [|d a IH]; intros H.
  - apply contains_nil_r in H. subst q. apply contains_nil_l.
  - rewrite contains_cons in H. apply orb_true_iff in H as [H | H].
    + apply contains_startswith. now apply startswith_app_l.
    + simpl append. rewrite contains_cons, (IH H). apply orb_true_r.
Qed.

(** A pattern without the character [x] cannot reach across an [x]. *)
Lemma startswith_app_sep (x : ascii) (q a b : string) :
  free_of x q = true ->
  startswith (a ++ String x b) q = startswith a q.
Proof.
  revert a; induction q as [|c q IH]; intros a Hq.
  - now rewrite !startswith_nil_r.
  - simpl in Hq. apply andb_true_iff in Hq as [Hc Hq].
    destruct a as [|d a]; simpl.
    + apply negb_true_iff in Hc. now rewrite Hc.
    + now rewrite IH.
Qed.

Lemma contains_app_sep (x : ascii) (q a b : string) :
  free_of x q = true ->
  contains q (a ++ String x b) = contains q a || contains q b.
Proof.
  intros Hq; induction a as [|d a IH].
  - simpl append. rewrite contains_cons.
    change (String x b) with ("" ++ String x b).
    rewrite (startswith_app_sep x q "" b Hq).
    destruct q; reflexivity.
  - simpl append. rewrite !contains_cons, IH.
    change (String d (a ++ String x b)) with (String d a ++ String x b).
    rewrite (startswith_app_sep x q (String d a) b Hq).
    now rewrite orb_assoc.
Qed.

Lemma contains_bracketed (q body rest : string) :
  free_of "[" q = true -> free_of "]" q = true ->
  contains q (bracketed body ++ rest) =
  contains q "" || (contains q body || contains q rest).
Proof.
  intros Hl Hr. unfold bracketed.
  change (String "[" (body ++ "]") ++ rest)
    with ("" ++ String "[" ((body ++ "]") ++ rest)).
  rewrite (contains_app_sep "[" q "" _ Hl). f_equal.
  rewrite app_assoc.
  change ("]" ++ rest) with (String "]" rest).
  apply (contains_app_sep "]" q body rest Hr).
Qed.

Lemma count_bracketed (body : string) : 1 <= count "[" (bracketed body).
Proof. unfold bracketed. simpl. lia. Qed.

Lemma count_app (c : ascii) (a b : string) :
  count c (a ++ b) = count c a + count c b.
Proof. induction a as [|x a IH]; simpl; [reflexivity | rewrite IH; lia]. Qed.

Lemma count_free_of (c : ascii) (s : string) :
  free_of c s = true -> count c s = 0.
Proof.
  induction s as [|x s IH]; simpl; [reflexivity|].
  intros H. apply andb_true_iff in H as [Hx Hs].
  apply negb_true_iff in Hx. rewrite Hx. now rewrite IH.
Qed.

Lemma endswith_app (t p : string) : endswith (t ++ p) p = true.
Proof.
  unfold endswith. rewrite length_app.
  replace (String.length t + String.length p - String.length p)
    with (String.length t) by lia.
  rewrite drop_app, String.eqb_refl, andb_true_r.
  apply Nat.leb_le. lia.
Qed.

(** *** Patterns that begin with a line break *)

Lemma free_of_app (x : ascii) (a b : string) :
  free_of x (a ++ b) = free_of x a && free_of x b.
Proof.
  induction a as [|c a IH]; simpl; [reflexivity|].
  now rewrite IH, andb_assoc.
Qed.

Lemma startswith_free (x : ascii) (a q : string) :
  free_of x a = true -> startswith a q = true -> free_of x q = true.
Proof.
  revert a; induction q as [|c q IH]; intros a Ha H; [reflexivity|].
  destruct a as [|d a]; simpl in *; [discriminate|].
  apply andb_true_iff in H as [Hc Hq]. apply andb_true_iff in Ha as [Hd Ha].
  apply Ascii.eqb_eq in Hc. subst d. rewrite Hd. simpl. now apply (IH a).
Qed.

Lemma contains_sep_absent (x : ascii) (q a : string) :
  free_of x a = true -> contains (String x q) a = false.
Proof.
  induction a as [|c a IH]; intros Ha; [reflexivity|].
  simpl in Ha. apply andb_true_iff in Ha as [Hc Ha].
  rewrite contains_cons, (IH Ha), orb_false_r. simpl.
  apply negb_true_iff in Hc. now rewrite Ascii.eqb_sym, Hc.
Qed.

(** A pattern that begins with [x] is found at an [x] of the text. *)
Lemma contains_sep_skip (x : ascii) (q a b : string) :
  free_of x a = true ->
  contains (String x q) (a ++ String x b) =
  startswith b q || contains (String x q) b.
Proof.
  induction a as [|c a IH]; intros Ha.
  - simpl append. rewrite contains_cons. simpl startswith.
    now rewrite Ascii.eqb_refl.
  - simpl in Ha. apply andb_true_iff in Ha as [Hc Ha].
    simpl append. rewrite contains_cons, (IH Ha). simpl startswith.
    apply negb_true_iff in Hc. now rewrite Ascii.eqb_sym, Hc.
Qed.

(** Two texts that agree up to their first [x] have the same first line. *)
Lemma startswith_first_line (x : ascii) (a b L r : string) :
  free_of x a = true -> free_of x L = true ->
  startswith (a ++ String x b) (L ++ String x r) = true -> a = L.
Proof.
  revert a; induction L as [|c L IH]; intros a Ha HL H.
  - destruct a as [|d a]; [reflexivity|].
    simpl in H, Ha. apply andb_true_iff in H as [Hx _].
    apply andb_true_iff in Ha as [Hd _]. apply negb_true_iff in Hd.
    rewrite Ascii.eqb_sym, Hd in Hx. discriminate.
  - simpl in HL. apply andb_true_iff in HL as [Hc HL].
    destruct a as [|d a]; simpl in H.
    + apply andb_true_iff in H as [Hx _]. apply negb_true_iff in Hc.
      rewrite Hc in Hx. discriminate.
    + apply andb_true_iff in H as [Hcd H]. apply Ascii.eqb_eq in Hcd. subst d.
      simpl in Ha. apply andb_true_iff in Ha as [_ Ha].
      f_equal. now apply IH.
Qed.

Lemma join_cons2 (sep a b : string) (rest : list string) :
  join sep (a :: b :: rest) = a ++ sep ++ join sep (b :: rest).
Proof. reflexivity. Qed.

Lemma join_app (sep : string) (l1 l2 : list string) :
  l1 <> [] -> l2 <> [] ->
  join sep (l1 ++ l2) = join sep l1 ++ sep ++ join sep l2.
Proof.
  intros H1 H2. induction l1 as [|a l1 IH]; [contradiction|].
  destruct l1 as [|b l1].
  - destruct l2; [contradiction | reflexivity].
  - change ((a :: b :: l1) ++ l2)%list with (a :: b :: (l1 ++ l2))%list.
    rewrite !join_cons2, !app_assoc.
    apply f_equal, f_equal, IH. discriminate.
Qed.

(** In a text made of lines, a pattern from a line break over a whole line
    [L] to the next line break is found only if [L] is one of the lines. *)
Lemma contains_line (L r : string) (ls : list string) :
  Forall (fun l => single_line l = true) ls ->
  single_line L = true ->
  contains (nl ++ L ++ nl ++ r) (join nl ls) = true ->
  In L ls.
Proof.
  unfold single_line, nl. simpl append. intros Hls HL.
  induction Hls as [|a ls Ha Hls IH]; intros H; [discriminate|].
  destruct ls as [|b ls].
  - change (join (String (ascii_of_nat 10) "") [a]) with a in H.
    rewrite (contains_sep_absent _ _ a Ha) in H. discriminate.
  - rewrite join_cons2 in H. simpl append in H.
    rewrite (contains_sep_skip _ _ a _ Ha) in H.
    apply orb_true_iff in H as [H | H]; [|right; now apply IH].
    right. left.
    destruct ls as [|c ls].
    + change (join (String (ascii_of_nat 10) "") [b]) with b in H.
      inversion Hls as [|? ? Hb _]; subst.
      apply (startswith_free _ b _ Hb) in H.
      rewrite free_of_app in H. simpl in H.
      rewrite andb_false_r in H. discriminate.
    + inversion Hls as [|? ? Hb _]; subst.
      now apply (startswith_first_line _ b _ L r Hb HL) in H.
Qed.

(** *** [replace] *)

Lemma replace_from_drop (old new : string) (k : nat) (s : string) :
  replace_from old new k s = replace_from old new 0 (drop k s).
Proof.
  revert k; induction s as [|c s IH]; intros [|k]; try reflexivity.
  simpl drop. rewrite <- IH. reflexivity.
Qed.

Section Replace.

Variables old new : string.
Hypothesis old_nonempty : old <> "".

Lemma replace_nonempty (s : string) : replace s old new = replace_from old new 0 s.
Proof. unfold replace. destruct old; [contradiction | reflexivity]. Qed.

Lemma replace_nil : replace "" old new = "".
Proof. now rewrite replace_nonempty. Qed.

Lemma replace_match (t : string) : replace (old ++ t) old new = new ++ replace t old new.
Proof.
  rewrite !replace_nonempty.
  destruct old as [|c o] eqn:E; [contradiction|].
  simpl append. unfold replace_from at 1; fold replace_from.
  change (String c (o ++ t)) with (String c o ++ t).
  rewrite startswith_app. f_equal.
  rewrite replace_from_drop. simpl String.length.
  replace (S (String.length o) - 1) with (String.length o) by lia.
  now rewrite drop_app.
Qed.

Lemma replace_nomatch (c : ascii) (s : string) :
  startswith (String c s) old = false ->
  replace (String c s) old new = String c (replace s old new).
Proof.
  intros H. rewrite !replace_nonempty.
  unfold replace_from at 1; fold replace_from. now rewrite H.
Qed.

(** Induction along the scan of [replace]. *)
Lemma replace_ind (P : string -> Prop) :
  P "" ->
  (forall t, P t -> P (old ++ t)) ->
  (forall c s, startswith (String c s) old = false -> P s -> P (String c s)) ->
  forall s, P s.
Proof.
  intros Hnil Hmatch Hstep s.
  remember (String.length s) as n eqn:Hn.
  revert s Hn; induction n as [n IH] using lt_wf_ind; intros s Hn.
  destruct s as [|c s]; [exact Hnil|].
  destruct (startswith (String c s) old) eqn:E.
  - rewrite (startswith_split _ _ E). apply Hmatch.
    apply (IH (String.length (drop (String.length old) (String c s)))); [|reflexivity].
    subst n. rewrite (startswith_split _ _ E) at 2. rewrite length_app.
    destruct old; [contradiction | simpl; lia].
  - apply Hstep; [exact E|].
    apply (IH (String.length s)); [subst n; simpl; lia | reflexivity].
Qed.

(** Nothing to replace: the string comes back unchanged. *)
Lemma replace_absent (s : string) :
  contains old s = false -> replace s old new = s.
Proof.
  induction s as [|c s IH].
  - intros _. apply replace_nil.
  - rewrite contains_cons. intros H. apply orb_false_iff in H as [H1 H2].
    rewrite replace_nomatch by exact H1. now rewrite IH.
Qed.

End Replace.

(** Replacing by a bracketed text [[body]]. *)
Section ReplaceBracketed.

Variables old body : string.
Hypothesis old_nonempty : old <> "".

Local Notation "'R' s" := (replace s old (bracketed body)) (at level 10, s at level 9).

(** A bracket-free pattern that starts the result started the input. *)
Lemma startswith_replace (q s : string) :
  free_of "[" q = true ->
  startswith (R s) q = true -> startswith s q = true.
Proof.
  intros Hq. revert q Hq.
  induction s as [| t IH | c s Hc IH] using (replace_ind old old_nonempty); intros q Hq H.
  - now rewrite replace_nil in H.
  - rewrite replace_match in H by exact old_nonempty.
    destruct q as [|d q]; [apply startswith_nil_r|].
    simpl in Hq. apply andb_true_iff in Hq as [Hd _]. apply negb_true_iff in Hd.
    unfold bracketed in H. simpl in H. rewrite Hd in H.
    discriminate.
  - rewrite replace_nomatch in H by assumption.
    destruct q as [|d q]; [reflexivity|].
    simpl in H |- *. apply andb_true_iff in H as [Hd Hs].
    rewrite Hd. simpl. simpl in Hq. apply andb_true_iff in Hq as [_ Hq].
    now apply IH.
Qed.

(** A bracket-free pattern found in the result was in the input or in
    the replacement text. *)
Lemma contains_replace (q s : string) :
  free_of "[" q = true -> free_of "]" q = true ->
  contains q body = false ->
  contains q (R s) = true -> contains q s = true.
Proof.
  intros Hl Hr Hbody.
  induction s as [| t IH | c s Hc IH] using (replace_ind old old_nonempty); intros H.
  - now rewrite replace_nil in H.
  - rewrite replace_match in H by exact old_nonempty.
    rewrite (contains_bracketed q body _ Hl Hr), Hbody in H. simpl orb in H.
    apply orb_true_iff in H as [H | H].
    + apply contains_nil_r in H. subst q. apply contains_nil_l.
    + apply contains_app_r. now apply IH.
  - rewrite replace_nomatch in H by assumption.
    rewrite contains_cons in H |- *.
    apply orb_true_iff in H as [H | H]; apply orb_true_iff.
    + left. apply startswith_replace; [exact Hl|].
      now rewrite replace_nomatch by assumption.
    + right. now apply IH.
Qed.

(** After the replacement the pattern is gone. *)
Lemma replace_removes (s : string) :
  free_of "[" old = true -> free_of "]" old = true ->
  contains old body = false ->
  contains old (R s) = false.
Proof.
  intros Hl Hr Hbody.
  induction s as [| t IH | c s Hc IH] using (replace_ind old old_nonempty).
  - rewrite replace_nil by exact old_nonempty.
    destruct old; [contradiction | reflexivity].
  - rewrite replace_match by exact old_nonempty.
    rewrite (contains_bracketed old body _ Hl Hr), Hbody, IH.
    destruct old; [contradiction | reflexivity].
  - rewrite replace_nomatch by assumption.
    rewrite contains_cons, IH, orb_false_r.
    destruct (startswith (String c (R s)) old) eqn:E; [|reflexivity].
    rewrite <- replace_nomatch in E by assumption.
    apply startswith_replace in E; [congruence | exact Hl].
Qed.

(** Every replacement adds an opening bracket. *)
Lemma count_replace_le (s : string) :
  free_of "[" old = true -> count "[" s <= count "[" (R s).
Proof.
  intros Hl.
  induction s as [| t IH | c s Hc IH] using (replace_ind old old_nonempty).
  - now rewrite replace_nil.
  - rewrite replace_match by exact old_nonempty.
    rewrite !count_app, (count_free_of _ _ Hl).
    pose proof (count_bracketed body). lia.
  - rewrite replace_nomatch by assumption. simpl. lia.
Qed.

Lemma count_replace_lt (s : string) :
  free_of "[" old = true -> contains old s = true ->
  count "[" s < count "[" (R s).
Proof.
  intros Hl.
  induction s as [| t IH | c s Hc IH] using (replace_ind old old_nonempty); intros H.
  - apply contains_nil_r in H. contradiction.
  - rewrite replace_match by exact old_nonempty.
    rewrite !count_app, (count_free_of _ _ Hl).
    pose proof (count_bracketed body). pose proof (count_replace_le t Hl). lia.
  - rewrite replace_nomatch by assumption.
    rewrite contains_cons, Hc in H. simpl in H |- *.
    specialize (IH H). lia.
Qed.

End ReplaceBracketed.

End PyStrFacts.

(** ** 19_inputfilters.py: [sanitize_sensitive_info] *)

Module InputFiltersFacts.

Import PyStrFacts InputFilters.

Lemma sanitize_unfold (s : string) :
  sanitize_sensitive_info s =
  if negb (redacted s =? s) then redacted s ++ nl ++ nl ++ redaction_note
  else redacted s.
Proof. reflexivity. Qed.

(** One replacement step keeps a bracket-free pattern out. *)
Lemma replace_keeps_out (q old body s : string) :
  old <> "" ->
  free_of "[" q = true -> free_of "]" q = true ->
  contains q body = false ->
  contains q s = false ->
  contains q (replace s old (bracketed body)) = false.
Proof.
  intros Hne Hl Hr Hb Hs.
  destruct (contains q (replace s old (bracketed body))) eqn:E; [|reflexivity].
  apply (contains_replace old body Hne q s Hl Hr Hb) in E. congruence.
Qed.

Ltac side := solve [reflexivity | discriminate].

Ltac keep_out := apply replace_keeps_out; [side | side | side | side |].
Ltac removed := apply replace_removes; side.

Lemma redacted_no_credit_card (s : string) : contains "credit card" (redacted s) = false.
Proof.
  unfold redacted.
  change "[PAYMENT METHOD]" with (bracketed "PAYMENT METHOD").
  change "[REDACTED ID]" with (bracketed "REDACTED ID").
  change "[CREDENTIALS]" with (bracketed "CREDENTIALS").
  change "[ACCOUNT ID]" with (bracketed "ACCOUNT ID").
  keep_out. keep_out. keep_out. removed.
Qed.

Lemma redacted_no_SSN (s : string) : contains "SSN" (redacted s) = false.
Proof.
  unfold redacted.
  change "[REDACTED ID]" with (bracketed "REDACTED ID").
  change "[CREDENTIALS]" with (bracketed "CREDENTIALS").
  change "[ACCOUNT ID]" with (bracketed "ACCOUNT ID").
  keep_out. keep_out. removed.
Qed.

Lemma redacted_no_password (s : string) : contains "password" (redacted s) = false.
Proof.
  unfold redacted.
  change "[CREDENTIALS]" with (bracketed "CREDENTIALS").
  change "[ACCOUNT ID]" with (bracketed "ACCOUNT ID").
  keep_out. removed.
Qed.

Lemma redacted_no_account_number (s : string) :
  contains "account number" (redacted s) = false.
Proof.
  unfold redacted.
  change "[ACCOUNT ID]" with (bracketed "ACCOUNT ID").
  removed.
Qed.

(** The note brings none of the patterns in. *)
Lemma note_keeps_out (q t : string) :
  free_of (ascii_of_nat 10) q = true ->
  contains q (nl ++ redaction_note) = false ->
  contains q t = false ->
  contains q (t ++ nl ++ nl ++ redaction_note) = false.
Proof.
  intros Hq Hn Ht.
  change (nl ++ nl ++ redaction_note)
    with (String (ascii_of_nat 10) (nl ++ redaction_note)).
  now rewrite (contains_app_sep _ q t _ Hq), Ht, Hn.
Qed.

Lemma redacted_absent (s : string) :
  mentions_sensitive s = false -> redacted s = s.
Proof.
  unfold mentions_sensitive, redacted. intros H.
  apply orb_false_iff in H as [H H4].
  apply orb_false_iff in H as [H H3].
  apply orb_false_iff in H as [H1 H2].
  rewrite (replace_absent "credit card" _ ltac:(discriminate) s H1).
  rewrite (replace_absent "SSN" _ ltac:(discriminate) s H2).
  rewrite (replace_absent "password" _ ltac:(discriminate) s H3).
  apply (replace_absent "account number" _ ltac:(discriminate) s H4).
Qed.

Lemma redacted_changed (s : string) :
  mentions_sensitive s = true -> redacted s <> s.
Proof.
  unfold mentions_sensitive, redacted. intros H.
  change "[PAYMENT METHOD]" with (bracketed "PAYMENT METHOD").
  change "[REDACTED ID]" with (bracketed "REDACTED ID").
  change "[CREDENTIALS]" with (bracketed "CREDENTIALS").
  change "[ACCOUNT ID]" with (bracketed "ACCOUNT ID").
  set (s1 := replace s "credit card" (bracketed "PAYMENT METHOD")).
  set (s2 := replace s1 "SSN" (bracketed "REDACTED ID")).
  set (s3 := replace s2 "password" (bracketed "CREDENTIALS")).
  set (s4 := replace s3 "account number" (bracketed "ACCOUNT ID")).
  assert (L1 : count "[" s <= count "[" s1)
    by (apply count_replace_le; side).
  assert (L2 : count "[" s1 <= count "[" s2)
    by (apply count_replace_le; side).
  assert (L3 : count "[" s2 <= count "[" s3)
    by (apply count_replace_le; side).
  assert (L4 : count "[" s3 <= count "[" s4)
    by (apply count_replace_le; side).
  assert (Hlt : count "[" s < count "[" s4); [|intros E; rewrite E in Hlt; lia].
  destruct (contains "credit card" s) eqn:H1.
  { assert (count "[" s < count "[" s1) by (apply count_replace_lt; side || exact H1).
    lia. }
  assert (E1 : s1 = s) by (apply replace_absent; side || exact H1).
  destruct (contains "SSN" s) eqn:H2.
  { assert (count "[" s1 < count "[" s2)
      by (apply count_replace_lt; side || (rewrite E1; exact H2)).
    lia. }
  assert (E2 : s2 = s)
    by (unfold s2; rewrite E1; apply replace_absent; side || exact H2).
  destruct (contains "password" s) eqn:H3.
  { assert (count "[" s2 < count "[" s3)
      by (apply count_replace_lt; side || (rewrite E2; exact H3)).
    lia. }
  assert (E3 : s3 = s)
    by (unfold s3; rewrite E2; apply replace_absent; side || exact H3).
  simpl in H.
  assert (count "[" s3 < count "[" s4)
    by (apply count_replace_lt; side || (rewrite E3; exact H)).
  lia.
Qed.

Lemma sanitize_mentions (s : string) :
  mentions_sensitive s = true ->
  sanitize_sensitive_info s = redacted s ++ nl ++ nl ++ redaction_note.
Proof.
  intros H. rewrite sanitize_unfold.
  destruct (String.eqb_spec (redacted s) s) as [E | _]; [|reflexivity].
  now apply redacted_changed in H.
Qed.

Lemma sanitize_clean_input (s : string) :
  mentions_sensitive s = false -> sanitize_sensitive_info s = s.
Proof.
  intros H. rewrite sanitize_unfold, (redacted_absent s H).
  now rewrite String.eqb_refl.
Qed.

Lemma sanitize_output_clean (s : string) :
  mentions_sensitive (sanitize_sensitive_info s) = false.
Proof.
  unfold mentions_sensitive. rewrite sanitize_unfold.
  destruct (negb (redacted s =? s)).
  - rewrite !note_keeps_out; try side;
      auto using redacted_no_credit_card, redacted_no_SSN,
        redacted_no_password, redacted_no_account_number.
  - now rewrite redacted_no_credit_card, redacted_no_SSN,
      redacted_no_password, redacted_no_account_number.
Qed.

End InputFiltersFacts.

Module InputFiltersClaims.

Import PyStrFacts InputFilters InputFiltersFacts.

(** The four replacements at work on one input. *)
Example sanitize_sample :
  sanitize_sensitive_info "my credit card, SSN, password and account number" =
  "my [PAYMENT METHOD], [REDACTED ID], [CREDENTIALS] and [ACCOUNT ID]"
  ++ nl ++ nl ++ redaction_note.
Proof. reflexivity. Qed.

(** C1, as stated, fails: an input that is itself the note text mentions none
    of the four substrings, comes back unchanged, and so ends with the note
    although nothing was redacted. *)
Lemma sanitize_note_without_redaction :
  mentions_sensitive redaction_note = false /\
  sanitize_sensitive_info redaction_note = redaction_note /\
  endswith (sanitize_sensitive_info redaction_note) redaction_note = true /\
  ~ (endswith (sanitize_sensitive_info redaction_note) redaction_note = true <->
     mentions_sensitive redaction_note = true).
Proof.
  split; [reflexivity|]. split; [reflexivity|]. split; [reflexivity|].
  intros [H _]. specialize (H eq_refl). discriminate H.
Qed.

(** C1 (amended): for every input [s] the result of
    [sanitize_sensitive_info] contains none of "credit card", "SSN",
    "password", "account number"; when one of them occurred in [s] the result
    is the text after the four replacements followed by a blank line and the
    note; when none occurred the result is [s] itself.  Hence the result ends
    with the note exactly when one of the substrings occurred in [s] or [s]
    already ended with the note. *)
Theorem sanitize_sensitive_info_redacts (s : string) :
  (contains "credit card" (sanitize_sensitive_info s) = false /\
   contains "SSN" (sanitize_sensitive_info s) = false /\
   contains "password" (sanitize_sensitive_info s) = false /\
   contains "account number" (sanitize_sensitive_info s) = false) /\
  (mentions_sensitive s = true ->
   sanitize_sensitive_info s = redacted s ++ nl ++ nl ++ redaction_note) /\
  (mentions_sensitive s = false -> sanitize_sensitive_info s = s) /\
  (endswith (sanitize_sensitive_info s) redaction_note = true <->
   mentions_sensitive s = true \/ endswith s redaction_note = true).
Proof.
  split; [|split; [|split]].
  - pose proof (sanitize_output_clean s) as H. unfold mentions_sensitive in H.
    apply orb_false_iff in H as [H H4].
    apply orb_false_iff in H as [H H3].
    apply orb_false_iff in H as [H1 H2]. auto.
  - apply sanitize_mentions.
  - apply sanitize_clean_input.
  - destruct (mentions_sensitive s) eqn:M.
    + rewrite (sanitize_mentions s M).
      rewrite <- !app_assoc, endswith_app. tauto.
    + rewrite (sanitize_clean_input s M).
      split; [auto | intros [H | H]; [discriminate | exact H]].
Qed.

(** A text with a password in it, and one with nothing to redact. *)
Lemma sanitize_sensitive_info_redacts_witness :
  sanitize_sensitive_info "my password" =
    "my [CREDENTIALS]" ++ nl ++ nl ++ redaction_note /\
  sanitize_sensitive_info "hello" = "hello".
Proof.
  split.
  - apply (sanitize_sensitive_info_redacts "my password"). reflexivity.
  - apply (sanitize_sensitive_info_redacts "hello"). reflexivity.
Defined.

(** C8: [sanitize_sensitive_info] is idempotent: its result mentions none of
    the four substrings, so a second application replaces nothing and appends
    no second note. *)
Theorem sanitize_sensitive_info_idempotent (s : string) :
  sanitize_sensitive_info (sanitize_sensitive_info s) = sanitize_sensitive_info s /\
  mentions_sensitive (sanitize_sensitive_info s) = false /\
  mentions_sensitive "[PAYMENT METHOD]" = false /\
  mentions_sensitive "[REDACTED ID]" = false /\
  mentions_sensitive "[CREDENTIALS]" = false /\
  mentions_sensitive "[ACCOUNT ID]" = false /\
  mentions_sensitive redaction_note = false.
Proof.
  split; [apply sanitize_clean_input, sanitize_output_clean|].
  split; [apply sanitize_output_clean|].
  repeat split; reflexivity.
Qed.

End InputFiltersClaims.

(** ** The start-up check *)

Module StartupClaims.

Import Startup.

Lemma construct_all_builds (objects built : list object) :
  construct_all objects built = (inr tt, (built ++ objects)%list).
Proof.
  revert built; induction objects as [|o rest IH]; intros built; simpl.
  - now rewrite List.app_nil_r.
  - unfold bind, construct. rewrite IH, <- List.app_assoc. reflexivity.
Qed.

(** C3: in every script that reads GEMINI_API_KEY, when [os.getenv] gives
    [None] or the empty string, module initialisation raises the ValueError
    with the message
    "GEMINI_API_KEY is not set. Please ensure it is defined in your .env file."
    and has built no object; when it gives a non-empty string no exception
    is raised: the client is built with that key, then the objects of the
    script (the model and run configuration, or the two models of
    25_models.py). *)
Theorem module_init_checks_key (script : object -> list object) (built : list object) :
  module_init None script built =
    (inl (ValueError
            "GEMINI_API_KEY is not set. Please ensure it is defined in your .env file."),
     built) /\
  module_init (Some "") script built =
    (inl (ValueError
            "GEMINI_API_KEY is not set. Please ensure it is defined in your .env file."),
     built) /\
  (forall c k,
     let client :=
       AsyncOpenAI (Some (String c k))
         "https://generativelanguage.googleapis.com/v1beta/openai/" in
     module_init (Some (String c k)) script built =
       (inr tt, (built ++ client :: script client)%list)) /\
  (forall client,
     model_and_config client =
       [ OpenAIChatCompletionsModel "gemini-2.0-flash" client;
         RunConfig (OpenAIChatCompletionsModel "gemini-2.0-flash" client) client true ]) /\
  (forall client,
     two_models client =
       [ OpenAIChatCompletionsModel "gemini-2.0-flash" client;
         OpenAIChatCompletionsModel "gemini-2.0-pro" client ]).
Proof.
  repeat split.
  intros c k client. unfold module_init, bind, construct. cbn [truthy negb].
  rewrite construct_all_builds, <- List.app_assoc. reflexivity.
Qed.

End StartupClaims.

(** ** The weather tools *)

Module WeatherClaims.

Import Weather InputFilters RandomHelpers.

Lemma get_weather_voice_draw (city : string) (w : World) :
  fst (get_weather_voice city w) =
  option_map (fun c => "The weather in " ++ city ++ " is " ++ c ++ ".")
    (nth_error choices (rng w (rng_pos w) mod 4)).
Proof.
  unfold get_weather_voice, random_choice, print, choices.
  cbn -[Nat.modulo nth_error].
  now destruct (nth_error _ _).
Qed.

(** C4: for every city [X] the voice agent's [get_weather] answers one of
    the four sentences "The weather in X is sunny.", "... cloudy.",
    "... rainy.", "... snowy.", each of them for some draw of
    [random.choice], and the basicconfig [get_weather] always answers
    "The weather in X is sunny". *)
Theorem get_weather_fixed_answers (X : string) :
  (forall w,
     In (fst (get_weather_voice X w))
       [ Some ("The weather in " ++ X ++ " is sunny.");
         Some ("The weather in " ++ X ++ " is cloudy.");
         Some ("The weather in " ++ X ++ " is rainy.");
         Some ("The weather in " ++ X ++ " is snowy.") ]) /\
  (forall answer,
     In answer
       [ "The weather in " ++ X ++ " is sunny.";
         "The weather in " ++ X ++ " is cloudy.";
         "The weather in " ++ X ++ " is rainy.";
         "The weather in " ++ X ++ " is snowy." ] ->
     exists w, fst (get_weather_voice X w) = Some answer) /\
  get_weather X = "The weather in " ++ X ++ " is sunny".
Proof.
  split; [|split; [|reflexivity]].
  - intros w. rewrite get_weather_voice_draw.
    pose proof (Nat.mod_upper_bound (rng w (rng_pos w)) 4 ltac:(lia)) as Hlt.
    destruct (rng w (rng_pos w) mod 4) as [|[|[|[|n]]]]; simpl; auto; lia.
  - intros answer H. simpl in H.
    destruct H as [H | [H | [H | [H | []]]]]; subst answer.
    + exists (mkWorld (fun _ => 0) 0 []). reflexivity.
    + exists (mkWorld (fun _ => 1) 0 []). reflexivity.
    + exists (mkWorld (fun _ => 2) 0 []). reflexivity.
    + exists (mkWorld (fun _ => 3) 0 []). reflexivity.
Qed.










End WeatherClaims.

(** ** 22_localcontext.py *)

Module LocalContextFacts.

Import LocalContext.

Lemma lower_char_idem (c : ascii) : lower_char (lower_char c) = lower_char c.
Proof. destruct c as [[] [] [] [] [] [] [] []]; reflexivity. Qed.

Lemma upper_lower_char (c : ascii) : upper_char (lower_char c) = upper_char c.
Proof. destruct c as [[] [] [] [] [] [] [] []]; reflexivity. Qed.

Lemma lower_idem (s : string) : lower (lower s) = lower s.
Proof.
  induction s as [|c s IH]; simpl; [reflexivity|].
  now rewrite lower_char_idem, IH.
Qed.

(** Capitalising sees the lower-case form only. *)
Lemma capitalize_lower (s : string) : capitalize (lower s) = capitalize s.
Proof.
  destruct s as [|c s]; simpl; [reflexivity|].
  now rewrite upper_lower_char, lower_idem.
Qed.

Lemma dict_get_set_same {V} (d : dict V) (k : string) (v : V) :
  dict_get (dict_set d k v) k = Some v.
Proof.
  induction d as [|[k' v'] d IH]; simpl.
  - now rewrite String.eqb_refl.
  - destruct (k' =? k) eqn:E; simpl; rewrite E; [reflexivity | exact IH].
Qed.

Lemma dict_get_set_other {V} (d : dict V) (k k0 : string) (v : V) :
  k0 <> k -> dict_get (dict_set d k v) k0 = dict_get d k0.
Proof.
  intros Hne. induction d as [|[k' v'] d IH]; simpl.
  - destruct (String.eqb_spec k k0); [congruence | reflexivity].
  - destruct (String.eqb_spec k' k) as [->|Hk]; simpl.
    + destruct (String.eqb_spec k k0); [congruence | reflexivity].
    + now rewrite IH.
Qed.

Lemma post_init_inv (u : UserInfo) : UserInfo_inv (post_init u) = true.
Proof.
  unfold post_init, UserInfo_inv.
  destruct u as [n i e t [p|] [h|]]; reflexivity.
Qed.

Lemma run_tool_inv (c : tool_call) (user : UserInfo) :
  UserInfo_inv user = true -> UserInfo_inv (snd (run_tool c user)) = true.
Proof.
  unfold UserInfo_inv.
  destruct user as [n i e t [p|] [h|]]; try discriminate. intros _.
  destruct c; unfold run_tool.
  - reflexivity.
  - now destruct p.
  - now destruct h.
  - unfold get_subscription_features.
    now destruct (dict_get features _).
  - reflexivity.
Qed.

Lemma run_tools_inv (cs : list tool_call) (user : UserInfo) :
  UserInfo_inv user = true -> UserInfo_inv (run_tools cs user) = true.
Proof.
  revert user; induction cs as [|c cs IH]; intros user H; simpl; [exact H|].
  apply IH, run_tool_inv, H.
Qed.

Lemma get_subscription_features_known (user : UserInfo) (fs : list string) :
  dict_get features (lower (subscription_tier user)) = Some fs ->
  fst (get_subscription_features user) =
  inr (rendered (capitalize (lower (subscription_tier user))) fs).
Proof.
  intros H. unfold get_subscription_features. rewrite H.
  now rewrite capitalize_lower.
Qed.

End LocalContextFacts.

Module LocalContextClaims.

Import LocalContext LocalContextFacts.

(** C6: [get_subscription_features] answers with the canned list of the
    user's tier when the lower-cased tier is "free" (4 features), "basic"
    (5) or "premium" (6): the lines, each after "- ", under the header
    "Features for Free tier:", "Features for Basic tier:" or
    "Features for Premium tier:"; for every other tier it answers
    "Unknown subscription tier: " followed by the tier as stored. *)
Theorem get_subscription_features_by_tier (user : UserInfo) :
  (lower (subscription_tier user) = "free" ->
   fst (get_subscription_features user) =
   inr (rendered "Free"
          [ "Basic access to platform"; "Limited storage (5GB)";
            "Standard support"; "Access to community forums" ])) /\
  (lower (subscription_tier user) = "basic" ->
   fst (get_subscription_features user) =
   inr (rendered "Basic"
          [ "Full access to platform"; "Increased storage (50GB)";
            "Priority email support"; "No advertisements";
            "Monthly newsletter" ])) /\
  (lower (subscription_tier user) = "premium" ->
   fst (get_subscription_features user) =
   inr (rendered "Premium"
          [ "Full access to all features"; "Unlimited storage";
            "24/7 priority support"; "Early access to new features";
            "Exclusive content"; "Personalized recommendations" ])) /\
  (lower (subscription_tier user) <> "free" ->
   lower (subscription_tier user) <> "basic" ->
   lower (subscription_tier user) <> "premium" ->
   fst (get_subscription_features user) =
   inr ("Unknown subscription tier: " ++ subscription_tier user)) /\
  option_map (@List.length string) (dict_get features "free") = Some 4 /\
  option_map (@List.length string) (dict_get features "basic") = Some 5 /\
  option_map (@List.length string) (dict_get features "premium") = Some 6 /\
  snd (get_subscription_features user) = user.
Proof.
  repeat split.
  - intros H. rewrite (get_subscription_features_known user _ ltac:(rewrite H; reflexivity)).
    now rewrite H.
  - intros H. rewrite (get_subscription_features_known user _ ltac:(rewrite H; reflexivity)).
    now rewrite H.
  - intros H. rewrite (get_subscription_features_known user _ ltac:(rewrite H; reflexivity)).
    now rewrite H.
  - intros H1 H2 H3. unfold get_subscription_features, features. cbn [dict_get].
    destruct (String.eqb_spec "free" (lower (subscription_tier user))); [congruence|].
    destruct (String.eqb_spec "basic" (lower (subscription_tier user))); [congruence|].
    destruct (String.eqb_spec "premium" (lower (subscription_tier user))); [congruence|].
    reflexivity.
  - unfold get_subscription_features. now destruct (dict_get features _).
Qed.

(** A tier written in capitals, and one that is not known. *)
Lemma get_subscription_features_by_tier_witness :
  fst (get_subscription_features
         (new_UserInfo "Bob Smith" 1 None (Some "PREMIUM") None None)) =
  inr ("Features for Premium tier:" ++ nl
       ++ "- Full access to all features" ++ nl
       ++ "- Unlimited storage" ++ nl
       ++ "- 24/7 priority support" ++ nl
       ++ "- Early access to new features" ++ nl
       ++ "- Exclusive content" ++ nl
       ++ "- Personalized recommendations") /\
  fst (get_subscription_features
         (new_UserInfo "Bob Smith" 1 None (Some "gold") None None)) =
  inr "Unknown subscription tier: gold".
Proof.
  split.
  - apply (get_subscription_features_by_tier
             (new_UserInfo "Bob Smith" 1 None (Some "PREMIUM") None None)).
    reflexivity.
  - apply (get_subscription_features_by_tier
             (new_UserInfo "Bob Smith" 1 None (Some "gold") None None));
      discriminate.
Defined.

(** C9: a [UserInfo] has a dictionary (possibly empty) in [preferences] and a
    list (possibly empty) in [purchase_history], never [None], from its
    construction on: [__post_init__] puts [{}] and [[]] where [None] was
    given, each of the five context tools keeps it so, and so does every
    run of tool calls on a constructed object. *)
Theorem UserInfo_collections_never_None :
  (forall name uid email tier prefs hist,
     UserInfo_inv (new_UserInfo name uid email tier prefs hist) = true) /\
  (forall name uid email tier,
     preferences (new_UserInfo name uid email tier None None) = Some [] /\
     purchase_history (new_UserInfo name uid email tier None None) = Some []) /\
  (forall user,
     UserInfo_inv user = true ->
     UserInfo_inv (snd (fetch_user_profile user)) = true /\
     UserInfo_inv (snd (fetch_user_preferences user)) = true /\
     UserInfo_inv (snd (fetch_purchase_history user)) = true /\
     UserInfo_inv (snd (get_subscription_features user)) = true /\
     forall key value,
       UserInfo_inv (snd (update_user_preference key value user)) = true) /\
  (forall name uid email tier prefs hist calls,
     UserInfo_inv (run_tools calls (new_UserInfo name uid email tier prefs hist)) = true).
Proof.
  split; [|split; [|split]].
  - intros. apply post_init_inv.
  - intros. split; reflexivity.
  - intros user H. repeat split.
    + apply (run_tool_inv FetchUserProfile user H).
    + apply (run_tool_inv FetchUserPreferences user H).
    + apply (run_tool_inv FetchPurchaseHistory user H).
    + apply (run_tool_inv GetSubscriptionFeatures user H).
    + intros key value. apply (run_tool_inv (UpdateUserPreference key value) user H).
  - intros. apply run_tools_inv, post_init_inv.
Qed.

(** The invariant on the demo user after a preference update. *)
Lemma UserInfo_collections_never_None_witness :
  UserInfo_inv alice = true /\
  UserInfo_inv (snd (update_user_preference "theme" "light" alice)) = true.
Proof.
  split; [reflexivity|].
  apply (UserInfo_collections_never_None).
  reflexivity.
Defined.

(** C10: on a context whose [preferences] is a dictionary,
    [update_user_preference] answers
    "Successfully updated preference: {key} = {value}", makes
    [preferences[key]] equal to [value], and leaves [name], [uid], [email],
    [subscription_tier], [purchase_history] and every preference under
    another key as they were. *)
Theorem update_user_preference_frame (user : UserInfo) (key value : string) :
  UserInfo_inv user = true ->
  fst (update_user_preference key value user) =
    inr ("Successfully updated preference: " ++ key ++ " = " ++ value) /\
  preference (snd (update_user_preference key value user)) key = Some value /\
  name (snd (update_user_preference key value user)) = name user /\
  uid (snd (update_user_preference key value user)) = uid user /\
  email (snd (update_user_preference key value user)) = email user /\
  subscription_tier (snd (update_user_preference key value user)) =
    subscription_tier user /\
  purchase_history (snd (update_user_preference key value user)) =
    purchase_history user /\
  (forall k, k <> key ->
     preference (snd (update_user_preference key value user)) k = preference user k).
Proof.
  unfold UserInfo_inv, update_user_preference, preference.
  destruct user as [n i e t [p|] [h|]]; try discriminate. intros _. simpl.
  repeat split.
  - apply dict_get_set_same.
  - intros k Hk. now apply dict_get_set_other.
Qed.

(** The demo user switches the theme. *)
Lemma update_user_preference_frame_witness :
  UserInfo_inv alice = true /\
  fst (update_user_preference "theme" "light" alice) =
    inr "Successfully updated preference: theme = light" /\
  preference (snd (update_user_preference "theme" "light" alice)) "theme" = Some "light" /\
  preference (snd (update_user_preference "theme" "light" alice)) "notifications" =
    Some "enabled".
Proof.
  split; [reflexivity|].
  pose proof (update_user_preference_frame alice "theme" "light" eq_refl) as H.
  split; [apply H|]. split; [apply H|].
  destruct H as (_ & _ & _ & _ & _ & _ & _ & H).
  rewrite (H "notifications"); [reflexivity | discriminate].
Defined.

End LocalContextClaims.

(** ** 07_basicdynamicinstructions.py *)

Module DynamicInstructionsClaims.

Import PyStrFacts DynamicInstructions.

(** The instructions are the base text, then what the experience level
    adds, then what the language adds. *)
Lemma dynamic_instructions_parts (user : UserContext) :
  dynamic_instructions user =
  base_text user ++ level_paragraph (experience_level user)
  ++ language_part (language user).
Proof.
  unfold dynamic_instructions, level_paragraph, language_part.
  destruct (experience_level user =? "beginner");
    [|destruct (experience_level user =? "intermediate");
      [|destruct (experience_level user =? "expert")]];
    destruct (language user =? "English"); cbn [negb];
    rewrite ?app_assoc, ?app_nil_r; reflexivity.
Qed.

Lemma level_paragraph_cases (level : string) :
  (level = "beginner" /\ level_paragraph level = beginner_paragraph) \/
  (level = "intermediate" /\ level_paragraph level = intermediate_paragraph) \/
  (level = "expert" /\ level_paragraph level = expert_paragraph) \/
  (level <> "beginner" /\ level <> "intermediate" /\ level <> "expert" /\
   level_paragraph level = "").
Proof.
  unfold level_paragraph.
  destruct (String.eqb_spec level "beginner") as [->|H1]; [now left|].
  destruct (String.eqb_spec level "intermediate") as [->|H2]; [now right; left|].
  destruct (String.eqb_spec level "expert") as [->|H3]; [now right; right; left|].
  now right; right; right.
Qed.

(** Walk along a chain of concatenations to the piece looked for. *)
Ltac find_piece :=
  repeat first [ apply contains_app_head | apply contains_app_r ].

(** Split equivalences and close each side by computation. *)
Ltac settle :=
  repeat match goal with
         | |- _ /\ _ => split
         | |- _ <-> _ => split
         | |- _ -> _ => intro
         | |- _ <> _ => intro
         | H : _ /\ _ |- _ => destruct H
         end;
  try reflexivity; try assumption; try congruence;
  try match goal with
      | H : _ = _ |- _ => vm_compute in H; discriminate H
      end.

Lemma level_lines_paragraph (level : string) :
  level_paragraph level =
  match level_lines level with
  | [] => ""
  | _ :: _ => nl ++ join nl (level_lines level)
  end.
Proof.
  unfold level_paragraph, level_lines.
  destruct (level =? "beginner"); [reflexivity|].
  destruct (level =? "intermediate"); [reflexivity|].
  destruct (level =? "expert"); reflexivity.
Qed.

Lemma language_lines_part (lang : string) :
  language_part lang =
  match language_lines lang with
  | [] => ""
  | _ :: _ => nl ++ join nl (language_lines lang)
  end.
Proof.
  unfold language_part, language_lines, language_addendum.
  destruct (lang =? "English"); [reflexivity|].
  cbn [join]. now rewrite !app_assoc.
Qed.

Lemma base_lines_text (user : UserContext) :
  base_text user = join nl (base_lines user).
Proof.
  unfold base_text, base_lines. cbn [join]. now rewrite !app_assoc.
Qed.

(** The instructions are their lines joined by line breaks. *)
Lemma dynamic_instructions_lines (user : UserContext) :
  dynamic_instructions user = join nl (instruction_lines user).
Proof.
  rewrite dynamic_instructions_parts, base_lines_text,
    level_lines_paragraph, language_lines_part.
  unfold instruction_lines.
  destruct (level_lines (experience_level user)) as [|l ls] eqn:El;
    destruct (language_lines (language user)) as [|m ms] eqn:Em;
    cbn [List.app]; rewrite ?List.app_nil_r, ?app_nil_r.
  - reflexivity.
  - rewrite join_app by discriminate. reflexivity.
  - rewrite join_app by discriminate. reflexivity.
  - rewrite (join_app nl (base_lines user)) by discriminate.
    change (l :: ls ++ m :: ms)%list with ((l :: ls) ++ m :: ms)%list.
    rewrite (join_app nl (l :: ls)) by discriminate.
    now rewrite !app_assoc.
Qed.

Lemma instruction_lines_single (user : UserContext) :
  single_line_fields user = true ->
  Forall (fun l => single_line l = true) (instruction_lines user).
Proof.
  unfold single_line_fields. intros H.
  apply andb_true_iff in H as [H Hi].
  apply andb_true_iff in H as [H He].
  apply andb_true_iff in H as [Hn Hl].
  unfold instruction_lines, base_lines, level_lines, language_lines, respond_in.
  apply Forall_app; split; [|apply Forall_app; split].
  - repeat constructor; unfold single_line in *;
      rewrite ?free_of_app, ?Hn, ?Hl, ?He, ?Hi; reflexivity.
  - destruct (experience_level user =? "beginner"); [repeat constructor|].
    destruct (experience_level user =? "intermediate"); [repeat constructor|].
    destruct (experience_level user =? "expert"); repeat constructor.
  - destruct (language user =? "English"); repeat constructor.
    unfold single_line in *. rewrite ?free_of_app, ?Hl. reflexivity.
Qed.

(** A paragraph found in the instructions of a context with one-line
    fields has its first line among the lines. *)
Lemma paragraph_first_line (user : UserContext) (L r : string) :
  single_line_fields user = true ->
  single_line L = true ->
  contains (nl ++ L ++ nl ++ r) (dynamic_instructions user) = true ->
  In L (instruction_lines user).
Proof.
  intros Hu HL H. rewrite dynamic_instructions_lines in H.
  exact (contains_line L r _ (instruction_lines_single user Hu) HL H).
Qed.

(** The line is none of those a level or a language puts in. *)
Ltac not_a_line H :=
  unfold instruction_lines, base_lines, level_lines, language_lines,
    respond_in in H;
  repeat match type of H with
         | context [if ?b then _ else _] => destruct b eqn:?
         end;
  cbn [List.app In] in H;
  repeat match type of H with
         | _ \/ _ => destruct H as [H | H]
         end;
  try contradiction; try (cbn in H; discriminate H).

(** C7, as stated, fails: with the beginner paragraph and the English
    addendum in the user's own name, the instructions contain the beginner
    paragraph although the level is "expert", and contain the addendum, block
    and sentence, although the language is "English".  The sentence
    "Respond in English when possible." alone, as a name on one line, is
    contained as well. *)
Lemma dynamic_instructions_echo :
  (experience_level echo_user = "expert" /\
   contains beginner_paragraph (dynamic_instructions echo_user) = true) /\
  (language echo_user = "English" /\
   contains (language_addendum (language echo_user)) (dynamic_instructions echo_user)
   = true /\
   contains (respond_in (language echo_user)) (dynamic_instructions echo_user) = true) /\
  (language polite_user = "English" /\
   single_line_fields polite_user = true /\
   contains (respond_in (language polite_user)) (dynamic_instructions polite_user)
   = true).
Proof. repeat split; reflexivity. Qed.

Lemma appended_level_contained (user : UserContext) :
  contains (level_paragraph (experience_level user)) (dynamic_instructions user) = true.
Proof. rewrite dynamic_instructions_parts. apply contains_app_mid. Qed.

Lemma appended_language_contained (user : UserContext) :
  language user <> "English" ->
  contains (language_addendum (language user)) (dynamic_instructions user) = true /\
  contains (respond_in (language user)) (dynamic_instructions user) = true.
Proof.
  intros N. rewrite dynamic_instructions_parts. unfold language_part.
  destruct (String.eqb_spec (language user) "English") as [E | _]; [contradiction|].
  split.
  - do 2 apply contains_app_r. apply contains_refl.
  - unfold language_addendum. find_piece.
Qed.

Lemma language_addendum_form (lang : string) :
  language_addendum lang =
  nl ++ ("        " ++ respond_in lang) ++ nl
     ++ "        Use simple sentence structures for clarity." ++ nl ++ "        ".
Proof. unfold language_addendum. now rewrite !app_assoc. Qed.

Lemma beginner_only (user : UserContext) :
  single_line_fields user = true ->
  contains beginner_paragraph (dynamic_instructions user) = true ->
  experience_level user = "beginner".
Proof.
  intros Hu H.
  apply (paragraph_first_line user
           "        Use simple explanations and avoid technical jargon."
           ("        Provide step-by-step guidance and offer encouragement."
            ++ nl ++ "        ") Hu eq_refl) in H.
  not_a_line H; now apply String.eqb_eq.
Qed.

Lemma intermediate_only (user : UserContext) :
  single_line_fields user = true ->
  contains intermediate_paragraph (dynamic_instructions user) = true ->
  experience_level user = "intermediate".
Proof.
  intros Hu H.
  apply (paragraph_first_line user
           "        You can use some technical terms but explain complex concepts."
           ("        Provide more detailed information and some advanced tips."
            ++ nl ++ "        ") Hu eq_refl) in H.
  not_a_line H; now apply String.eqb_eq.
Qed.

Lemma expert_only (user : UserContext) :
  single_line_fields user = true ->
  contains expert_paragraph (dynamic_instructions user) = true ->
  experience_level user = "expert".
Proof.
  intros Hu H.
  apply (paragraph_first_line user
           "        You can use technical language freely."
           ("        Focus on advanced techniques and in-depth analysis."
            ++ nl ++ "        Be concise and precise in your explanations."
            ++ nl ++ "        ") Hu eq_refl) in H.
  not_a_line H; now apply String.eqb_eq.
Qed.

Lemma addendum_only (user : UserContext) :
  single_line_fields user = true ->
  contains (language_addendum (language user)) (dynamic_instructions user) = true ->
  language user <> "English".
Proof.
  intros Hu H E. rewrite language_addendum_form in H.
  apply paragraph_first_line in H; [|exact Hu|].
  - unfold instruction_lines in H. rewrite E in H.
    change (language_lines "English") with (@nil string) in H.
    not_a_line H.
  - rewrite E. reflexivity.
Qed.

(** With the language "English" nothing but the base text can hold the
    sentence of the addendum. *)
Lemma english_sentence_in_base (user : UserContext) :
  language user = "English" ->
  contains (respond_in "English") (dynamic_instructions user) =
  contains (respond_in "English") (base_text user).
Proof.
  intros E. rewrite dynamic_instructions_parts, E.
  change (language_part "English") with "". rewrite app_nil_r.
  assert (S : forall rest,
            contains (respond_in "English") rest = false ->
            contains (respond_in "English") (base_text user ++ nl ++ rest) =
            contains (respond_in "English") (base_text user)).
  { intros rest R.
    change (nl ++ rest) with (String (ascii_of_nat 10) rest).
    rewrite (contains_app_sep (ascii_of_nat 10) (respond_in "English")
               (base_text user) rest eq_refl).
    rewrite R. apply orb_false_r. }
  destruct (level_paragraph_cases (experience_level user))
    as [[_ P] | [[_ P] | [[_ P] | (_ & _ & _ & P)]]]; rewrite P.
  - unfold beginner_paragraph. apply S. reflexivity.
  - unfold intermediate_paragraph. apply S. reflexivity.
  - unfold expert_paragraph. apply S. reflexivity.
  - now rewrite app_nil_r.
Qed.

(** C7 (amended): for every context the instructions embed the name, the
    language, the experience level and the interests joined by ", "; they
    are the base text, followed by the beginner, intermediate or expert
    paragraph exactly when [experience_level] is "beginner", "intermediate"
    or "expert" (by nothing for any other value), followed by the addendum
    with "Respond in {language} when possible." exactly when [language] is
    not "English"; what is appended is contained in the result.  For a
    context whose name, language, experience level and joined interests hold
    no line break, the result contains each paragraph exactly when the level
    is the paragraph's, and contains the addendum block exactly when the
    language is not "English".  For every context the result contains the
    sentence "Respond in {language} when possible." exactly when the
    language is not "English" or the base text, through the user's own
    fields, contains that sentence. *)
Theorem dynamic_instructions_shape (user : UserContext) :
  (contains (name user) (dynamic_instructions user) = true /\
   contains (language user) (dynamic_instructions user) = true /\
   contains (experience_level user) (dynamic_instructions user) = true /\
   contains (join ", " (interests user)) (dynamic_instructions user) = true) /\
  dynamic_instructions user =
    base_text user ++ level_paragraph (experience_level user)
    ++ language_part (language user) /\
  ((level_paragraph (experience_level user) = beginner_paragraph <->
    experience_level user = "beginner") /\
   (level_paragraph (experience_level user) = intermediate_paragraph <->
    experience_level user = "intermediate") /\
   (level_paragraph (experience_level user) = expert_paragraph <->
    experience_level user = "expert") /\
   (level_paragraph (experience_level user) = "" <->
    experience_level user <> "beginner" /\
    experience_level user <> "intermediate" /\
    experience_level user <> "expert")) /\
  ((language_part (language user) = language_addendum (language user) <->
    language user <> "English") /\
   (language_part (language user) = "" <-> language user = "English")) /\
  ((experience_level user = "beginner" ->
    contains beginner_paragraph (dynamic_instructions user) = true) /\
   (experience_level user = "intermediate" ->
    contains intermediate_paragraph (dynamic_instructions user) = true) /\
   (experience_level user = "expert" ->
    contains expert_paragraph (dynamic_instructions user) = true) /\
   (language user <> "English" ->
    contains (language_addendum (language user)) (dynamic_instructions user) = true /\
    contains (respond_in (language user)) (dynamic_instructions user) = true)) /\
  (single_line_fields user = true ->
   (contains beginner_paragraph (dynamic_instructions user) = true <->
    experience_level user = "beginner") /\
   (contains intermediate_paragraph (dynamic_instructions user) = true <->
    experience_level user = "intermediate") /\
   (contains expert_paragraph (dynamic_instructions user) = true <->
    experience_level user = "expert") /\
   (contains (language_addendum (language user)) (dynamic_instructions user) = true <->
    language user <> "English")) /\
  (contains (respond_in (language user)) (dynamic_instructions user) = true <->
   language user <> "English" \/
   contains (respond_in (language user)) (base_text user) = true).
Proof.
  assert (Hif :
    (experience_level user = "beginner" ->
     contains beginner_paragraph (dynamic_instructions user) = true) /\
    (experience_level user = "intermediate" ->
     contains intermediate_paragraph (dynamic_instructions user) = true) /\
    (experience_level user = "expert" ->
     contains expert_paragraph (dynamic_instructions user) = true) /\
    (language user <> "English" ->
     contains (language_addendum (language user)) (dynamic_instructions user) = true /\
     contains (respond_in (language user)) (dynamic_instructions user) = true)).
  { pose proof (appended_level_contained user) as H.
    split; [|split; [|split]]; try (intros E; rewrite E in H; exact H).
    intros N. now apply appended_language_contained. }
  split; [|split; [apply dynamic_instructions_parts|split; [|split; [|split; [|split]]]]].
  - rewrite dynamic_instructions_parts.
    repeat split; apply contains_app_l; unfold base_text; find_piece.
  - destruct (level_paragraph_cases (experience_level user))
      as [[E P] | [[E P] | [[E P] | (N1 & N2 & N3 & P)]]]; rewrite P; settle.
  - unfold language_part.
    destruct (String.eqb_spec (language user) "English") as [E | N].
    + rewrite E. settle.
    + settle.
  - exact Hif.
  - intros Hu. destruct Hif as (Hb & Hi & He & Hl).
    repeat split; auto using beginner_only, intermediate_only, expert_only, addendum_only.
    intros N. now apply Hl.
  - destruct Hif as (_ & _ & _ & Hl).
    destruct (String.eqb_spec (language user) "English") as [E | N].
    + rewrite E at 1 3. rewrite (english_sentence_in_base user E).
      split; [now right | intros [H | H]; [contradiction | exact H]].
    + split; [now left | intros _; now apply Hl].
Qed.

(** A beginner who prefers Spanish: no field holds a line break, the
    instructions contain the beginner paragraph and the Spanish addendum,
    and neither of the other two paragraphs. *)
Lemma dynamic_instructions_shape_witness :
  single_line_fields maria = true /\
  contains beginner_paragraph (dynamic_instructions maria) = true /\
  contains "Respond in Spanish when possible." (dynamic_instructions maria) = true /\
  contains expert_paragraph (dynamic_instructions maria) <> true.
Proof.
  pose proof (dynamic_instructions_shape maria) as (_ & _ & _ & _ & Hif & Honly & _).
  destruct Hif as (Hb & _ & _ & Hl).
  destruct (Honly eq_refl) as (_ & _ & He & _).
  split; [reflexivity|]. split; [apply Hb; reflexivity|].
  split; [apply Hl; discriminate|].
  intros H. apply He in H. discriminate H.
Defined.

End DynamicInstructionsClaims.

(** ** 23_guardrails.py and 24_outputguardrails.py *)

Module GuardrailsClaims.

Import Guardrails.

(** C2, the code against the claim: with the detector agents' answers as
    parameters, [math_homework_guardrail] and [math_solution_guardrail]
    return the record with the tripwire clear and the detector's answer as
    [output_info] when the detector's flag is clear; when the flag is set
    they pass the keyword [tripwire_message], which is no field of the SDK's
    record, and the call raises TypeError: neither ever returns a record
    with the tripwire set, so nothing is blocked. *)
Theorem guardrails_raise_on_flag
    (Item : Type) (str_of_items : list Item -> string)
    (run_math_guardrail_agent : string -> MathHomeworkOutput)
    (run_math_output_agent : string -> MathOutput)
    (input_data : string + list Item) (output : MessageOutput) :
  let input_str :=
    match input_data with inl s => s | inr items => str_of_items items end in
  let homework := run_math_guardrail_agent input_str in
  let solution := run_math_output_agent (response output) in
  let g_in :=
    math_homework_guardrail Item str_of_items run_math_guardrail_agent input_data in
  let g_out := math_solution_guardrail run_math_output_agent output in
  (is_math_homework homework = true -> g_in = inl (TypeError "tripwire_message")) /\
  (is_math_homework homework = false ->
   g_in = inr (mkGuardrailFunctionOutput homework false)) /\
  (forall g, g_in = inr g ->
     tripwire_triggered g = false /\ blocks g = false /\ output_info g = homework) /\
  (is_math solution = true -> g_out = inl (TypeError "tripwire_message")) /\
  (is_math solution = false ->
   g_out = inr (mkGuardrailFunctionOutput solution false)) /\
  (forall g, g_out = inr g ->
     tripwire_triggered g = false /\ blocks g = false /\ output_info g = solution).
Proof.
  cbv zeta. unfold math_homework_guardrail, math_solution_guardrail.
  destruct (is_math_homework _), (is_math _); cbn [new_GuardrailFunctionOutput];
    repeat split; try discriminate; intros;
    match goal with H : inr _ = inr _ |- _ => injection H as <- end; reflexivity.
Qed.

(** A homework request the detector flags. *)
Example math_homework_guardrail_flagged :
  math_homework_guardrail unit (fun _ => "")
    (fun _ => mkMathHomeworkOutput true "It asks to solve an equation.")
    (inl "Solve for x: 2x + 5 = 15") =
  inl (TypeError "tripwire_message").
Proof. reflexivity. Qed.

End GuardrailsClaims.

(** ** More of the scripts *)

Module PyStrMoreFacts.

Import PyStrFacts PyStrMore.

(** A pattern that starts a concatenation starts its first part, or the
    first part starts the pattern. *)
Lemma startswith_app_cases (t b q : string) :
  startswith (t ++ b) q = true ->
  startswith t q = true \/ startswith q t = true.
Proof.
  revert t; induction q as [|c q IH]; intros t H.
  - left. apply startswith_nil_r.
  - destruct t as [|d t]; [right; reflexivity|].
    simpl in H |- *. apply andb_true_iff in H as [Hc H].
    rewrite Hc. apply Ascii.eqb_eq in Hc. subst d.
    rewrite Ascii.eqb_refl. simpl. now apply IH.
Qed.

Lemma clear_of_head (c : ascii) (a q b : string) :
  clear_of (String c a) q = true ->
  startswith (String c a ++ b) q = false /\ clear_of a q = true.
Proof.
  cbn [clear_of]. intros H. apply andb_true_iff in H as [H Ha].
  split; [|exact Ha].
  apply negb_true_iff, orb_false_iff in H as [H1 H2].
  destruct (startswith (String c a ++ b) q) eqn:E; [|reflexivity].
  apply startswith_app_cases in E as [E | E]; congruence.
Qed.

Lemma contains_app_clear (a q s : string) :
  clear_of a q = true -> contains q (a ++ s) = contains q s.
Proof.
  induction a as [|c a IH]; intros H; [reflexivity|].
  destruct (clear_of_head c a q s H) as [Hs Ha].
  change (String c a ++ s) with (String c (a ++ s)) in *.
  now rewrite contains_cons, Hs, IH.
Qed.

Lemma contains_app_nl (q s : string) :
  q <> "" -> single_line q = true -> contains q (s ++ nl) = contains q s.
Proof.
  intros Hq Hl. unfold nl.
  rewrite (contains_app_sep _ q s "" Hl).
  destruct q; [contradiction|]. simpl contains at 2. apply orb_false_r.
Qed.

Section Replace.

Variables old new : string.
Hypothesis old_nonempty : old <> "".

Lemma replace_app_clear (a s : string) :
  clear_of a old = true -> replace (a ++ s) old new = a ++ replace s old new.
Proof.
  induction a as [|c a IH]; intros H; [reflexivity|].
  destruct (clear_of_head c a old s H) as [Hs Ha].
  change (String c a ++ s) with (String c (a ++ s)) in *.
  rewrite (replace_nomatch old new old_nonempty _ _ Hs), IH by exact Ha.
  reflexivity.
Qed.

(** A pattern without [x] is replaced on each side of an [x] apart. *)
Lemma replace_app_sep (x : ascii) (a b : string) :
  free_of x old = true ->
  replace (a ++ String x b) old new =
  replace a old new ++ String x (replace b old new).
Proof.
  intros Hx.
  induction a as [| t IH | c s Hc IH] using (replace_ind old old_nonempty).
  - rewrite (replace_nil old new old_nonempty). simpl append.
    apply (replace_nomatch old new old_nonempty).
    change (String x b) with ("" ++ String x b).
    rewrite (startswith_app_sep x old "" b Hx).
    destruct old; [contradiction | reflexivity].
  - rewrite app_assoc, !(replace_match old new old_nonempty), IH.
    now rewrite app_assoc.
  - change (String c s ++ String x b) with (String c (s ++ String x b)).
    rewrite (replace_nomatch old new old_nonempty c s Hc).
    rewrite (replace_nomatch old new old_nonempty), IH; [reflexivity|].
    change (String c (s ++ String x b)) with (String c s ++ String x b).
    now rewrite (startswith_app_sep x old (String c s) b Hx).
Qed.

Lemma replace_app_nl (s : string) :
  single_line old = true -> replace (s ++ nl) old new = replace s old new ++ nl.
Proof.
  intros H. unfold nl. rewrite (replace_app_sep _ s "" H).
  now rewrite (replace_nil old new old_nonempty).
Qed.

End Replace.

Lemma contains_join_In (sep x : string) (l : list string) :
  In x l -> contains x (join sep l) = true.
Proof.
  induction l as [|a l IH]; intros H; [contradiction|].
  destruct l as [|b l].
  - destruct H as [-> | []]. apply contains_refl.
  - rewrite join_cons2. destruct H as [-> | H].
    + apply contains_app_head.
    + apply contains_app_r, contains_app_r, IH, H.
Qed.

End PyStrMoreFacts.

(** ** 19_inputfilters.py: the wrapping filters *)

Module FilterChainsFacts.

Import PyStrFacts PyStrMore PyStrMoreFacts InputFilters InputFiltersFacts FilterChains.

Lemma add_customer_context_head (s : string) :
  add_customer_context s = customer_head ++ s ++ nl.
Proof. unfold add_customer_context, customer_head. now rewrite !app_assoc. Qed.

Lemma add_system_instructions_head (s : string) :
  add_system_instructions s = system_head ++ s ++ nl.
Proof. unfold add_system_instructions, system_head. now rewrite !app_assoc. Qed.

(** A wrapper: a fixed head in which none of the four substrings can begin,
    then the input, then a line break. *)
Section Wrapper.

Variable head : string.
Hypothesis head_clear :
  clear_of head "credit card" = true /\ clear_of head "SSN" = true /\
  clear_of head "password" = true /\ clear_of head "account number" = true.

Lemma contains_wrapped (q s : string) :
  q <> "" -> single_line q = true -> clear_of head q = true ->
  contains q (head ++ s ++ nl) = contains q s.
Proof.
  intros Hq Hl Hc. now rewrite contains_app_clear, contains_app_nl.
Qed.

Lemma mentions_wrapped (s : string) :
  mentions_sensitive (head ++ s ++ nl) = mentions_sensitive s.
Proof.
  destruct head_clear as (H1 & H2 & H3 & H4). unfold mentions_sensitive.
  now rewrite !contains_wrapped by (assumption || reflexivity || discriminate).
Qed.

Lemma replace_wrapped (old new s : string) :
  old <> "" -> single_line old = true -> clear_of head old = true ->
  replace (head ++ s ++ nl) old new = head ++ replace s old new ++ nl.
Proof.
  intros Hq Hl Hc.
  now rewrite (replace_app_clear old new Hq), (replace_app_nl old new Hq).
Qed.

Lemma redacted_wrapped (s : string) :
  redacted (head ++ s ++ nl) = head ++ redacted s ++ nl.
Proof.
  destruct head_clear as (H1 & H2 & H3 & H4). unfold redacted.
  now rewrite !replace_wrapped by (assumption || reflexivity || discriminate).
Qed.

Lemma sanitize_wrapped (s : string) :
  sanitize_sensitive_info (head ++ s ++ nl) =
  (head ++ redacted s ++ nl) ++ note_if (mentions_sensitive s).
Proof.
  destruct (mentions_sensitive s) eqn:M; unfold note_if.
  - rewrite sanitize_mentions by (now rewrite mentions_wrapped).
    now rewrite redacted_wrapped.
  - rewrite sanitize_clean_input by (now rewrite mentions_wrapped).
    now rewrite (redacted_absent s M), app_nil_r.
Qed.

End Wrapper.

Lemma customer_head_clear :
  clear_of customer_head "credit card" = true /\ clear_of customer_head "SSN" = true /\
  clear_of customer_head "password" = true /\
  clear_of customer_head "account number" = true.
Proof. repeat split; vm_compute; reflexivity. Qed.

Lemma system_head_clear :
  clear_of system_head "credit card" = true /\ clear_of system_head "SSN" = true /\
  clear_of system_head "password" = true /\
  clear_of system_head "account number" = true.
Proof. repeat split; vm_compute; reflexivity. Qed.

Lemma sanitize_as_note (s : string) :
  sanitize_sensitive_info s = redacted s ++ note_if (mentions_sensitive s).
Proof.
  destruct (mentions_sensitive s) eqn:M; unfold note_if.
  - now apply sanitize_mentions.
  - now rewrite (sanitize_clean_input s M), (redacted_absent s M), app_nil_r.
Qed.

End FilterChainsFacts.

Module FilterChainsProperties.

Import PyStrFacts InputFilters FilterChains FilterChainsFacts.

(** X1: the two wrapping filters neither bring in nor hide any of the four
    searched-for substrings: the wrapped text mentions one of them exactly
    when the input does. *)
Theorem wrappers_keep_mentions (s : string) :
  mentions_sensitive (add_customer_context s) = mentions_sensitive s /\
  mentions_sensitive (add_system_instructions s) = mentions_sensitive s.
Proof.
  split.
  - rewrite add_customer_context_head. apply mentions_wrapped, customer_head_clear.
  - rewrite add_system_instructions_head. apply mentions_wrapped, system_head_clear.
Qed.

(** X3: sanitising a wrapped text redacts the input inside the wrapper and
    leaves the wrapper's own lines alone; the note, when something was
    redacted, comes after the wrapper.  Wrapping the sanitised text puts the
    same note inside the wrapper: the two orders differ in the place of the
    note only. *)
Theorem sanitize_and_wrappers (s : string) :
  sanitize_sensitive_info (add_customer_context s) =
    add_customer_context (redacted s) ++ note_if (mentions_sensitive s) /\
  sanitize_sensitive_info (add_system_instructions s) =
    add_system_instructions (redacted s) ++ note_if (mentions_sensitive s) /\
  add_customer_context (sanitize_sensitive_info s) =
    add_customer_context (redacted s ++ note_if (mentions_sensitive s)) /\
  add_system_instructions (sanitize_sensitive_info s) =
    add_system_instructions (redacted s ++ note_if (mentions_sensitive s)) /\
  (mentions_sensitive s = false ->
   sanitize_sensitive_info (add_customer_context s) =
   add_customer_context (sanitize_sensitive_info s)).
Proof.
  split; [|split; [|split; [|split]]].
  - rewrite !add_customer_context_head. apply sanitize_wrapped, customer_head_clear.
  - rewrite !add_system_instructions_head. apply sanitize_wrapped, system_head_clear.
  - now rewrite sanitize_as_note.
  - now rewrite sanitize_as_note.
  - intros M. rewrite !add_customer_context_head.
    rewrite (sanitize_wrapped _ customer_head_clear), sanitize_as_note, M.
    unfold note_if. now rewrite !app_nil_r.
Qed.

(** The chain printed last by [demonstrate_filters], on a short inquiry. *)
Lemma sanitize_and_wrappers_witness :
  sanitize_sensitive_info (add_customer_context "reset my password") =
  add_customer_context "reset my [CREDENTIALS]" ++ nl ++ nl ++ redaction_note /\
  sanitize_sensitive_info (add_customer_context "hello") =
  add_customer_context (sanitize_sensitive_info "hello").
Proof.
  split.
  - apply (sanitize_and_wrappers "reset my password").
  - apply (sanitize_and_wrappers "hello"). reflexivity.
Defined.

End FilterChainsProperties.

(** ** 22_localcontext.py: tools one after another *)

Module ToolRunsFacts.

Import PyStrFacts PyStrMoreFacts LocalContext LocalContextFacts ToolRuns.

Lemma dict_set_In {V} (d : dict V) (k : string) (v : V) :
  In (k, v) (dict_set d k v).
Proof.
  induction d as [|[k' v'] d IH]; simpl; [now left|].
  destruct (String.eqb_spec k' k) as [-> | _]; [now left | right; exact IH].
Qed.

(** A tool call changes nothing but, possibly, the preferences. *)
Lemma run_tool_frame (c : tool_call) (user : UserInfo) :
  name (snd (run_tool c user)) = name user /\
  uid (snd (run_tool c user)) = uid user /\
  email (snd (run_tool c user)) = email user /\
  subscription_tier (snd (run_tool c user)) = subscription_tier user /\
  purchase_history (snd (run_tool c user)) = purchase_history user.
Proof.
  destruct user as [n i e t p h]. destruct c; unfold run_tool.
  - repeat split.
  - unfold fetch_user_preferences. cbn [preferences].
    destruct p as [[|? ?]|]; repeat split.
  - unfold fetch_purchase_history. cbn [purchase_history].
    destruct h as [[|? ?]|]; repeat split.
  - unfold get_subscription_features.
    destruct (dict_get features _); repeat split.
  - unfold update_user_preference. cbn [preferences].
    destruct p; repeat split.
Qed.

Lemma run_tools_frame (calls : list tool_call) (user : UserInfo) :
  name (run_tools calls user) = name user /\
  uid (run_tools calls user) = uid user /\
  email (run_tools calls user) = email user /\
  subscription_tier (run_tools calls user) = subscription_tier user /\
  purchase_history (run_tools calls user) = purchase_history user.
Proof.
  revert user; induction calls as [|c calls IH]; intros user; [repeat split|].
  simpl. destruct (IH (snd (run_tool c user))) as (H1 & H2 & H3 & H4 & H5).
  destruct (run_tool_frame c user) as (F1 & F2 & F3 & F4 & F5).
  repeat split; congruence.
Qed.

(** The preference under [k] after one tool call. *)
Lemma run_tool_preference (c : tool_call) (user : UserInfo) (k : string) :
  UserInfo_inv user = true ->
  preference (snd (run_tool c user)) k =
  match c with
  | UpdateUserPreference key value => if key =? k then Some value else preference user k
  | _ => preference user k
  end.
Proof.
  unfold UserInfo_inv, preference.
  destruct user as [n i e t [p|] [h|]]; try discriminate. intros _.
  destruct c; unfold run_tool.
  - reflexivity.
  - unfold fetch_user_preferences. cbn [preferences]. now destruct p.
  - unfold fetch_purchase_history. cbn [purchase_history]. now destruct h.
  - unfold get_subscription_features. now destruct (dict_get features _).
  - unfold update_user_preference. cbn [preferences snd].
    destruct (String.eqb_spec key k) as [-> | N].
    + apply dict_get_set_same.
    + apply dict_get_set_other. congruence.
Qed.

End ToolRunsFacts.

Module ToolRunsProperties.

Import PyStrFacts PyStrMoreFacts LocalContext LocalContextFacts ToolRuns ToolRunsFacts.

(** X4: after [update_user_preference(key, value)] on a context whose
    preferences are a dictionary, [fetch_user_preferences] does not answer
    that no preferences have been set: it answers with the header
    "User Preferences:" and the lines of the preferences, and the line
    "- {key}: {value}" is among them. *)
Theorem update_then_fetch_user_preferences (user : UserInfo) (key value : string) :
  UserInfo_inv user = true ->
  exists lines,
    fst (fetch_user_preferences (snd (update_user_preference key value user))) =
      inr ("User Preferences:" ++ nl ++ join nl lines) /\
    In ("- " ++ key ++ ": " ++ value) lines /\
    contains ("- " ++ key ++ ": " ++ value) (join nl lines) = true.
Proof.
  unfold UserInfo_inv.
  destruct user as [n i e t [p|] [h|]]; try discriminate. intros _.
  unfold update_user_preference, fetch_user_preferences. cbn [preferences snd].
  pose proof (dict_set_In p key value) as HIn.
  destruct (dict_set p key value) as [|kv d] eqn:E; [contradiction|].
  eexists. split; [reflexivity|].
  assert (H : In ("- " ++ key ++ ": " ++ value)
                (map (fun kv0 : string * string => "- " ++ fst kv0 ++ ": " ++ snd kv0)
                   (kv :: d))).
  { apply (in_map (fun kv0 : string * string => "- " ++ fst kv0 ++ ": " ++ snd kv0)) in HIn.
    exact HIn. }
  split; [exact H | now apply contains_join_In].
Qed.

(** The queries of [main]: the demo user's theme is set to blue. *)
Lemma update_then_fetch_user_preferences_witness :
  fst (fetch_user_preferences (snd (update_user_preference "theme" "blue" alice))) =
  inr ("User Preferences:" ++ nl ++ "- theme: blue" ++ nl ++ "- notifications: enabled").
Proof.
  destruct (update_then_fetch_user_preferences alice "theme" "blue" eq_refl)
    as (lines & H & _).
  reflexivity.
Defined.

(** X5: whatever tools are called, in whatever order and on whatever
    context, the name, uid, email, subscription tier and purchase history
    stay as they were, and so [fetch_user_profile], [fetch_purchase_history]
    and [get_subscription_features] answer after the run what they answered
    before it. *)
Theorem run_tools_changes_preferences_only (calls : list tool_call) (user : UserInfo) :
  (name (run_tools calls user) = name user /\
   uid (run_tools calls user) = uid user /\
   email (run_tools calls user) = email user /\
   subscription_tier (run_tools calls user) = subscription_tier user /\
   purchase_history (run_tools calls user) = purchase_history user) /\
  fst (fetch_user_profile (run_tools calls user)) = fst (fetch_user_profile user) /\
  fst (fetch_purchase_history (run_tools calls user)) =
    fst (fetch_purchase_history user) /\
  fst (get_subscription_features (run_tools calls user)) =
    fst (get_subscription_features user).
Proof.
  pose proof (run_tools_frame calls user) as F.
  split; [exact F|]. destruct F as (F1 & F2 & F3 & F4 & F5).
  unfold fetch_user_profile, fetch_purchase_history, get_subscription_features.
  cbn [fst]. rewrite F1, F2, F3, F4, F5. repeat split.
  - now destruct (purchase_history user) as [[|? ?]|].
  - now destruct (dict_get features _).
Qed.

(** X6: after a run of tool calls on a context whose preferences are a
    dictionary, the preference under a key is the value of the last
    [update_user_preference] call for that key, and the preference the
    context had before when the run has no such call. *)
Theorem run_tools_last_update_wins (calls : list tool_call) (user : UserInfo) (k : string) :
  UserInfo_inv user = true ->
  preference (run_tools calls user) k =
  match last_update k calls with
  | Some v => Some v
  | None => preference user k
  end.
Proof.
  revert user; induction calls as [|c calls IH]; intros user H; [reflexivity|].
  cbn [run_tools last_update].
  rewrite (IH _ (run_tool_inv c user H)), (run_tool_preference c user k H).
  destruct (last_update k calls); [reflexivity|].
  destruct c; try reflexivity.
  now destruct (key =? k).
Qed.

(** Two updates of the theme with other calls around them. *)
Lemma run_tools_last_update_wins_witness :
  preference
    (run_tools
       [ UpdateUserPreference "theme" "blue"; FetchUserPreferences;
         UpdateUserPreference "theme" "green"; GetSubscriptionFeatures ]
       alice) "theme" = Some "green" /\
  preference
    (run_tools
       [ UpdateUserPreference "theme" "blue"; FetchUserPreferences;
         UpdateUserPreference "theme" "green"; GetSubscriptionFeatures ]
       alice) "notifications" = Some "enabled".
Proof.
  split; rewrite run_tools_last_update_wins; reflexivity.
Defined.

End ToolRunsProperties.

(** ** agents/22_localcontext.py: the purchase history tool that indexes *)

Module LocalContextOpenAIProperties.

Import LocalContext LocalContextOpenAI.

Lemma purchase_line_complete (p : dict pyval) :
  first_missing p = None -> exists line, purchase_line p = inr line.
Proof.
  unfold first_missing, purchase_line, dict_index.
  destruct (dict_get p "date"); [|discriminate].
  destruct (dict_get p "item"); [|discriminate].
  destruct (dict_get p "amount"); [|discriminate].
  intros _. eexists. reflexivity.
Qed.

Lemma purchase_line_missing (p : dict pyval) (k : string) :
  first_missing p = Some k -> purchase_line p = inl (KeyError k).
Proof.
  unfold first_missing, purchase_line, dict_index.
  destruct (dict_get p "date"); [|intros [= <-]; reflexivity].
  destruct (dict_get p "item"); [|intros [= <-]; reflexivity].
  destruct (dict_get p "amount"); [discriminate | intros [= <-]; reflexivity].
Qed.

Lemma purchase_lines_complete (history : list (dict pyval)) :
  Forall (fun p => first_missing p = None) history ->
  exists lines,
    purchase_lines history = inr lines /\ List.length lines = List.length history.
Proof.
  induction 1 as [|p history Hp _ IH]; [now exists []|].
  destruct (purchase_line_complete p Hp) as [line Hl].
  destruct IH as (lines & Hls & Hlen).
  exists (line :: lines). simpl. rewrite Hl, Hls, Hlen. now split.
Qed.

Lemma purchase_lines_missing (good : list (dict pyval)) (p : dict pyval)
    (rest : list (dict pyval)) (k : string) :
  Forall (fun p => first_missing p = None) good ->
  first_missing p = Some k ->
  purchase_lines (good ++ p :: rest) = inl (KeyError k).
Proof.
  intros Hgood Hp. induction Hgood as [|g good Hg _ IH]; simpl.
  - now rewrite (purchase_line_missing p k Hp).
  - destruct (purchase_line_complete g Hg) as [line Hl]. now rewrite Hl, IH.
Qed.

(** X7: the purchase history tool of agents/22_localcontext.py indexes each
    record with ['date'], ['item'] and ['amount'].  On a history whose
    records all have the three keys it answers with the header and one line
    per record; on a history with a record that lacks one it raises KeyError
    for the first missing key (in that order) of the first such record; on
    an empty or absent history it answers that none is available. *)
Theorem fetch_purchase_history_indexing (user : UserInfo) :
  (forall history,
     purchase_history user = Some history -> history <> [] ->
     Forall (fun p => first_missing p = None) history ->
     exists lines,
       fetch_purchase_history user = inr ("Purchase History:" ++ nl ++ join nl lines) /\
       List.length lines = List.length history) /\
  (forall good p rest k,
     purchase_history user = Some (good ++ p :: rest)%list ->
     Forall (fun p => first_missing p = None) good ->
     first_missing p = Some k ->
     fetch_purchase_history user = inl (KeyError k)) /\
  (purchase_history user = None \/ purchase_history user = Some [] ->
   fetch_purchase_history user = inr "No purchase history available for this user.").
Proof.
  unfold fetch_purchase_history. split; [|split].
  - intros history E Hne Hall. rewrite E.
    destruct (purchase_lines_complete history Hall) as (lines & Hls & Hlen).
    rewrite Hls. destruct history; [contradiction|]. now exists lines.
  - intros good p rest k E Hgood Hp. rewrite E.
    rewrite (purchase_lines_missing good p rest k Hgood Hp).
    now destruct good.
  - intros [E | E]; now rewrite E.
Qed.

(** The demo user of the other script keeps prices under "price": her
    records have no "amount", and the tool raises. *)
Lemma fetch_purchase_history_indexing_witness :
  fetch_purchase_history alice = inl (KeyError "amount") /\
  fetch_purchase_history
    (new_UserInfo "John Smith" 101 (Some "john.smith@example.com") (Some "free") None
       (Some [ [("date", VStr "2023-01-15"); ("item", VStr "Basic Tutorial");
                ("amount", VFloat "9.99")] ])) =
  inr ("Purchase History:" ++ nl ++ "- 2023-01-15: Basic Tutorial ($9.99)").
Proof.
  split.
  - destruct (fetch_purchase_history_indexing alice) as (_ & H & _).
    apply (H [] _ _ "amount" eq_refl); [constructor | reflexivity].
  - destruct (fetch_purchase_history_indexing
                (new_UserInfo "John Smith" 101 (Some "john.smith@example.com")
                   (Some "free") None
                   (Some [ [("date", VStr "2023-01-15"); ("item", VStr "Basic Tutorial");
                            ("amount", VFloat "9.99")] ]))) as (H & _).
    destruct (H _ eq_refl ltac:(discriminate) ltac:(repeat constructor))
      as (lines & E & _).
    reflexivity.
Defined.

End LocalContextOpenAIProperties.

(** ** 07_basicdynamicinstructions.py: the recommendation tool *)

Module RecommendationsProperties.

Import PyStrFacts LocalContext LocalContextFacts Recommendations DynamicInstructions.

Lemma lower_char_ascii (c : ascii) :
  Nat.ltb (nat_of_ascii (lower_char c)) 128 = true ->
  Nat.ltb (nat_of_ascii c) 128 = true.
Proof. destruct c as [[] [] [] [] [] [] [] []]; intros H; exact H || reflexivity. Qed.

Lemma ascii_only_lower (s : string) :
  ascii_only (lower s) = true -> ascii_only s = true.
Proof.
  induction s as [|c s IH]; [reflexivity|]. simpl. intros H.
  apply andb_true_iff in H as [Hc Hs].
  now rewrite (lower_char_ascii c Hc), IH.
Qed.

Lemma ascii_only_no_kelvin (s : string) :
  ascii_only s = true -> contains kelvin_sign s = false.
Proof.
  induction s as [|c s IH]; [reflexivity|]. cbn [ascii_only]. intros H.
  apply andb_true_iff in H as [Hc Hs].
  rewrite contains_cons, (IH Hs), orb_false_r.
  unfold kelvin_sign. cbn [startswith].
  destruct (Ascii.eqb_spec "226" c) as [<- | _]; [discriminate Hc | reflexivity].
Qed.

(** On ASCII text [str_lower] is [lower]. *)
Lemma str_lower_ascii (s : string) :
  ascii_only s = true -> str_lower s = lower s.
Proof.
  intros H. unfold str_lower.
  rewrite (replace_absent kelvin_sign "K"); [reflexivity | discriminate |].
  now apply ascii_only_no_kelvin.
Qed.

(** Decide the comparisons of a table lookup one after another. *)
Ltac by_key :=
  repeat (cbn [dict_get];
          match goal with
          | |- context [?a =? ?b] => destruct (String.eqb_spec a b)
          end).

Lemma known_found (topic level : string) :
  known topic level = true ->
  exists by_level recommendation,
    dict_get recommendations (str_lower topic) = Some by_level /\
    dict_get by_level (str_lower level) = Some recommendation /\
    get_recommendation topic level = recommendation.
Proof.
  unfold known. cbn [existsb]. intros K.
  apply andb_true_iff in K as [Kt Kl].
  repeat (apply orb_true_iff in Kt as [Kt | Kt]); try discriminate Kt;
    repeat (apply orb_true_iff in Kl as [Kl | Kl]); try discriminate Kl;
    apply String.eqb_eq in Kt; apply String.eqb_eq in Kl;
    unfold get_recommendation; rewrite Kt, Kl;
    do 2 eexists; repeat split.
Qed.

Lemma unknown_fallback (topic level : string) :
  known topic level = false ->
  get_recommendation topic level =
  "I don't have specific recommendations for " ++ topic ++ " at " ++ level
  ++ " level yet.".
Proof.
  unfold known, get_recommendation, recommendations. intros K.
  by_key; first
    [ reflexivity
    | exfalso;
      repeat match goal with
             | e : _ = str_lower _ |- _ => rewrite <- e in K; clear e
             end;
      vm_compute in K; discriminate K ].
Qed.

(** X8: [get_recommendation] ignores the case of both arguments: when the
    lower-cased topic is "programming", "cooking" or "photography" and the
    lower-cased level is "beginner", "intermediate" or "expert" it answers
    with the table's entry, the same for every spelling that lower-cases to
    the same words (capitals, and the Kelvin sign for the k of "cooking");
    for every other pair of arguments it answers with the fallback sentence,
    which quotes the arguments as they were given. *)
Theorem get_recommendation_ignores_case (topic level : string) :
  (known topic level = true ->
   (exists by_level recommendation,
      dict_get recommendations (str_lower topic) = Some by_level /\
      dict_get by_level (str_lower level) = Some recommendation /\
      get_recommendation topic level = recommendation) /\
   forall topic' level',
     str_lower topic' = str_lower topic -> str_lower level' = str_lower level ->
     get_recommendation topic' level' = get_recommendation topic level) /\
  (known topic level = false ->
   get_recommendation topic level =
   "I don't have specific recommendations for " ++ topic ++ " at " ++ level
   ++ " level yet.").
Proof.
  split.
  - intros K. split; [now apply known_found|].
    intros topic' level' Et El.
    assert (K' : known topic' level' = true) by (unfold known; now rewrite Et, El).
    destruct (known_found topic level K) as (b & r & Hb & Hr & ->).
    destruct (known_found topic' level' K') as (b' & r' & Hb' & Hr' & ->).
    rewrite Et in Hb'. rewrite El in Hr'. congruence.
  - apply unknown_fallback.
Qed.

(** The same advice for capitals and for a Kelvin sign in place of the k,
    and the fallback for a topic that is not in the table. *)
Lemma get_recommendation_ignores_case_witness :
  get_recommendation "Cooking" "EXPERT" = get_recommendation "cooking" "expert" /\
  get_recommendation ("coo" ++ kelvin_sign ++ "ing") "expert" =
  "Consider molecular gastronomy or advanced baking techniques." /\
  get_recommendation "chess" "expert" =
  "I don't have specific recommendations for chess at expert level yet.".
Proof.
  split; [|split].
  - apply (get_recommendation_ignores_case "cooking" "expert"); reflexivity.
  - destruct (get_recommendation_ignores_case "cooking" "expert") as [H _].
    destruct (H eq_refl) as [_ H'].
    apply (H' ("coo" ++ kelvin_sign ++ "ing") "expert"); reflexivity.
  - apply (get_recommendation_ignores_case "chess" "expert"); reflexivity.
Defined.

(** X9: the level is compared with its case in [dynamic_instructions] and
    without it in [get_recommendation].  For a context whose level is
    "beginner", "intermediate" or "expert" in another spelling (its
    lower-cased form is one of the three, the level itself is not), the
    instructions get no level paragraph, while the tool answers, for a topic
    of the table, with what it answers for the lower-cased level. *)
Theorem level_case_mismatch (user : UserContext) (topic : string) :
  In (lower (experience_level user)) ["beginner"; "intermediate"; "expert"] ->
  experience_level user <> lower (experience_level user) ->
  known topic (experience_level user) = true ->
  level_paragraph (experience_level user) = "" /\
  dynamic_instructions user = base_text user ++ language_part (language user) /\
  get_recommendation topic (experience_level user) =
    get_recommendation topic (lower (experience_level user)).
Proof.
  intros Hin Hne K.
  assert (P : level_paragraph (experience_level user) = "").
  { unfold level_paragraph.
    destruct (String.eqb_spec (experience_level user) "beginner") as [E | _];
      [rewrite E in Hne; now contradiction Hne|].
    destruct (String.eqb_spec (experience_level user) "intermediate") as [E | _];
      [rewrite E in Hne; now contradiction Hne|].
    destruct (String.eqb_spec (experience_level user) "expert") as [E | _];
      [rewrite E in Hne; now contradiction Hne|].
    reflexivity. }
  split; [exact P|]. split.
  - rewrite DynamicInstructionsClaims.dynamic_instructions_parts, P. reflexivity.
  - assert (A : ascii_only (lower (experience_level user)) = true).
    { destruct Hin as [E | [E | [E | []]]]; rewrite <- E; reflexivity. }
    assert (G : str_lower (lower (experience_level user)) =
                str_lower (experience_level user)).
    { rewrite (str_lower_ascii _ A), lower_idem.
      symmetry. apply str_lower_ascii, ascii_only_lower, A. }
    assert (K' : known topic (lower (experience_level user)) = true)
      by (unfold known in *; now rewrite G).
    destruct (known_found _ _ K) as (b & r & Hb & Hr & ->).
    destruct (known_found _ _ K') as (b' & r' & Hb' & Hr' & ->).
    rewrite G in Hr'. congruence.
Qed.

(** "Beginner" with a capital: no paragraph, yet the beginner's advice. *)
Lemma level_case_mismatch_witness :
  level_paragraph "Beginner" = "" /\
  get_recommendation "programming" "Beginner" =
  "Try starting with Python - it's beginner-friendly and versatile.".
Proof.
  destruct (level_case_mismatch
              (mkUserContext "Alex" "English" ["programming"] "Beginner")
              "programming") as (P & _ & R).
  - simpl. auto.
  - discriminate.
  - reflexivity.
  - split; [exact P | exact R].
Defined.

End RecommendationsProperties.

(** ** 23_guardrails.py and 24_outputguardrails.py: the other guardrails *)

Module MoreGuardrailsProperties.

Import Guardrails MoreGuardrails.

(** X10: with the detector agents' answers as parameters, each of
    [code_assignment_guardrail], [essay_writing_guardrail],
    [code_solution_guardrail] and [essay_guardrail] returns the record with
    the tripwire clear and the detector's answer as [output_info] when the
    detector's flag is clear, and raises TypeError for the keyword
    [tripwire_message] when the flag is set; none ever returns a record with
    the tripwire set. *)
Theorem other_guardrails_raise_on_flag
    (Item : Type) (str_of_items : list Item -> string)
    (run_code_guardrail_agent : string -> CodeAssignmentOutput)
    (run_essay_guardrail_agent : string -> EssayWritingOutput)
    (run_code_output_agent : string -> CodeOutput)
    (run_essay_output_agent : string -> EssayOutput)
    (input_data : string + list Item) (output : MessageOutput) :
  let input_str :=
    match input_data with inl s => s | inr items => str_of_items items end in
  let assignment := run_code_guardrail_agent input_str in
  let request := run_essay_guardrail_agent input_str in
  let code := run_code_output_agent (response output) in
  let essay := run_essay_output_agent (response output) in
  let g1 := code_assignment_guardrail Item str_of_items run_code_guardrail_agent input_data in
  let g2 := essay_writing_guardrail Item str_of_items run_essay_guardrail_agent input_data in
  let g3 := code_solution_guardrail run_code_output_agent output in
  let g4 := essay_guardrail run_essay_output_agent output in
  (g1 = if is_code_assignment assignment then inl (TypeError "tripwire_message")
        else inr (mkGuardrailFunctionOutput assignment false)) /\
  (g2 = if is_essay_request request then inl (TypeError "tripwire_message")
        else inr (mkGuardrailFunctionOutput request false)) /\
  (g3 = if is_code code then inl (TypeError "tripwire_message")
        else inr (mkGuardrailFunctionOutput code false)) /\
  (g4 = if is_essay essay then inl (TypeError "tripwire_message")
        else inr (mkGuardrailFunctionOutput essay false)) /\
  (forall g, g1 = inr g -> tripwire_triggered g = false) /\
  (forall g, g2 = inr g -> tripwire_triggered g = false) /\
  (forall g, g3 = inr g -> tripwire_triggered g = false) /\
  (forall g, g4 = inr g -> tripwire_triggered g = false).
Proof.
  cbv zeta.
  unfold code_assignment_guardrail, essay_writing_guardrail,
    code_solution_guardrail, essay_guardrail.
  destruct (is_code_assignment _), (is_essay_request _), (is_code _), (is_essay _);
    cbn [new_GuardrailFunctionOutput];
    repeat split; try discriminate; intros;
    match goal with H : inr _ = inr _ |- _ => injection H as <- end; reflexivity.
Qed.

End MoreGuardrailsProperties.

(** ** 26_basicvoiceagent.py: several calls of the weather tool *)

Module WeatherRunsProperties.

Import Weather WeatherRuns.




End WeatherRunsProperties.
